(** * Allocation engine of goal_budget_app.py

    Shallow embedding of the logged-in part of the Streamlit script
    [goal_budget_app.py] (lines 162-406): normalization of the stored goal
    dicts, the editable-row widgets, the pandas allocation pipeline and the
    write-back of the goals.

    Modelling choices:
    - Python floats are modelled as rationals [Q] (no rounding, no inf/nan);
    - a [datetime.date] is its proleptic ordinal ([date.toordinal]) as [Z];
    - a goal dict is a record with one optional field per key the script
      uses (None = key absent) and the remaining keys in [extra];
    - an uncaught Python exception (which stops the Streamlit run) is the
      [Err] case of a small error monad. *)

From Stdlib Require Import ZArith QArith Qround List String Ascii Bool Lia Lqa.
Import ListNotations.

Open Scope string_scope.
Open Scope Z_scope.

(** ** Errors *)

Inductive py_error : Type :=
| TypeError
| ValueError
| KeyError
| StreamlitAPIException.

Inductive res (A : Type) : Type :=
| Ok : A -> res A
| Err : py_error -> res A.
Arguments Ok {A} _.
Arguments Err {A} _.

Definition bind {A B : Type} (m : res A) (f : A -> res B) : res B :=
  match m with
  | Ok a => f a
  | Err e => Err e
  end.

Notation "'let*' x := m 'in' k" := (bind m (fun x => k))
  (at level 200, x name, m at level 100, k at level 200).

Fixpoint map_res {A B : Type} (f : A -> res B) (l : list A) : res (list B) :=
  match l with
  | [] => Ok []
  | x :: xs => let* y := f x in let* ys := map_res f xs in Ok (y :: ys)
  end.

(** ** Dates (Python's [datetime] module) *)

Definition is_leap (y : Z) : bool :=
  (Z.eqb (y mod 4) 0 && negb (Z.eqb (y mod 100) 0)) || Z.eqb (y mod 400) 0.

(** [_DAYS_IN_MONTH] and [_days_in_month]. *)
Definition days_in_month (y m : Z) : Z :=
  match m with
  | 1 => 31 | 2 => if is_leap y then 29 else 28 | 3 => 31 | 4 => 30
  | 5 => 31 | 6 => 30 | 7 => 31 | 8 => 31 | 9 => 30 | 10 => 31
  | 11 => 30 | 12 => 31 | _ => 0
  end.

(** [_DAYS_BEFORE_MONTH] (non-leap) and [_days_before_month]. *)
Definition days_before_month (y m : Z) : Z :=
  let dbm := match m with
             | 1 => 0 | 2 => 31 | 3 => 59 | 4 => 90 | 5 => 120 | 6 => 151
             | 7 => 181 | 8 => 212 | 9 => 243 | 10 => 273 | 11 => 304
             | _ => 334
             end in
  dbm + (if (2 <? m) && is_leap y then 1 else 0).

(** [_days_before_year]. *)
Definition days_before_year (y : Z) : Z :=
  let y1 := y - 1 in y1 * 365 + y1 / 4 - y1 / 100 + y1 / 400.

(** [date(y, m, d).toordinal()] ([_ymd2ord]). *)
Definition ymd2ord (y m d : Z) : Z :=
  days_before_year y + days_before_month y m + d.

Definition valid_ymd (y m d : Z) : bool :=
  (1 <=? y) && (y <=? 9999) && (1 <=? m) && (m <=? 12)
  && (1 <=? d) && (d <=? days_in_month y m).

Definition digit (c : ascii) : option Z :=
  let n := Z.of_nat (nat_of_ascii c) in
  if (48 <=? n) && (n <=? 57) then Some (n - 48) else None.

Fixpoint digits_val (acc : Z) (s : string) : option Z :=
  match s with
  | EmptyString => Some acc
  | String c r =>
      match digit c with
      | Some k => digits_val (10 * acc + k) r
      | None => None
      end
  end.

(** [datetime.date.fromisoformat] on the [YYYY-MM-DD] format (the only one
    accepted before Python 3.11); [None] is the [ValueError] it raises. *)
Definition fromisoformat (s : string) : option Z :=
  if negb (Nat.eqb (String.length s) 10) then None else
  match String.get 4 s, String.get 7 s with
  | Some "-"%char, Some "-"%char =>
      match digits_val 0 (substring 0 4 s), digits_val 0 (substring 5 2 s),
            digits_val 0 (substring 8 2 s) with
      | Some y, Some m, Some d =>
          if valid_ymd y m d then Some (ymd2ord y m d) else None
      | _, _, _ => None
      end
  | _, _ => None
  end.

(** ** Python values stored in a goal dict (loaded from JSON, or put there
    by the script itself) *)

Inductive pyval : Type :=
| VNone
| VBool (b : bool)
| VInt (z : Z)
| VFloat (q : Q)
| VStr (s : string)
| VDate (d : Z).

(** Python truthiness, used by [not goal["deadline"]]. *)
Definition truthy (v : pyval) : bool :=
  match v with
  | VNone => false
  | VBool b => b
  | VInt z => negb (Z.eqb z 0)
  | VFloat q => negb (Qeq_bool q 0)
  | VStr s => negb (String.eqb s "")
  | VDate _ => true
  end.

Definition split_sign (s : string) : Z * string :=
  match s with
  | String "-"%char r => ((-1)%Z, r)
  | String "+"%char r => (1%Z, r)
  | _ => (1%Z, s)
  end.

Fixpoint split_dot (s : string) : string * option string :=
  match s with
  | EmptyString => (EmptyString, None)
  | String "."%char r => (EmptyString, Some r)
  | String c r => let '(a, b) := split_dot r in (String c a, b)
  end.

(** [float(s)] on decimal literals [[+-]digits[.digits]]; other strings raise
    [ValueError] in this model (exponents, inf/nan, underscores and
    surrounding blanks, which Python also accepts, are not modelled). *)
Definition parse_float (s : string) : option Q :=
  let '(sg, body) := split_sign s in
  let '(ip, fp) := split_dot body in
  match fp with
  | None =>
      if String.eqb ip "" then None else
      option_map (fun n => inject_Z (sg * n)) (digits_val 0 ip)
  | Some f =>
      if String.eqb ip "" && String.eqb f "" then None else
      match digits_val 0 ip, digits_val 0 f with
      | Some n, Some m =>
          let k := Z.of_nat (String.length f) in
          Some (Qmake (sg * (n * 10 ^ k + m)) (Z.to_pos (10 ^ k)))
      | _, _ => None
      end
  end.

(** Python's [float(v)]. *)
Definition py_float (v : pyval) : res Q :=
  match v with
  | VNone => Err TypeError
  | VBool b => Ok (if b then 1 else 0)%Q
  | VInt z => Ok (inject_Z z)
  | VFloat q => Ok q
  | VStr s => match parse_float s with Some q => Ok q | None => Err ValueError end
  | VDate _ => Err TypeError
  end.

(** ** Goal dicts *)

(** A goal dict of [st.session_state.expenses]: [None] is an absent key;
    [extra] holds the keys other than the five the script uses. *)
Record goal : Type := mkGoal {
  name : option pyval;
  target : option pyval;
  deadline : option pyval;
  created : option pyval;
  saved_so_far : option pyval;
  extra : list (string * pyval)
}.

(** [goal[key]]: [KeyError] on an absent key. *)
Definition getitem (o : option pyval) : res pyval :=
  match o with Some v => Ok v | None => Err KeyError end.

(** Lines 222-236 for one date field: an absent or falsy value becomes
    [today]; a string is parsed with [fromisoformat], [today] on failure. *)
Definition normalize_date (today : Z) (o : option pyval) : pyval :=
  let v := match o with
           | Some v => if truthy v then v else VDate today
           | None => VDate today
           end in
  match v with
  | VStr s => match fromisoformat s with Some d => VDate d | None => VDate today end
  | _ => v
  end.

(** Lines 218-238: the in-place normalization of one goal dict. *)
Definition normalize_goal (today : Z) (g : goal) : goal :=
  {| name := match name g with None => Some (VStr "Unnamed Goal") | o => o end;
     target := match target g with None => Some (VFloat 0) | o => o end;
     deadline := Some (normalize_date today (deadline g));
     created := Some (normalize_date today (created g));
     saved_so_far := match saved_so_far g with None => Some (VFloat 0) | o => o end;
     extra := extra g |}.

(** ** Dates as [date.isoformat()] prints them *)

(** [_DAYS_IN_MONTH[m]] (non-leap). *)
Definition days_in_month_table (m : Z) : Z :=
  match m with
  | 1 => 31 | 2 => 28 | 3 => 31 | 4 => 30 | 5 => 31 | 6 => 30 | 7 => 31
  | 8 => 31 | 9 => 30 | 10 => 31 | 11 => 30 | 12 => 31 | _ => -1
  end.

(** [_DAYS_BEFORE_MONTH[m]] (non-leap). *)
Definition days_before_month_table (m : Z) : Z :=
  match m with
  | 1 => 0 | 2 => 31 | 3 => 59 | 4 => 90 | 5 => 120 | 6 => 151 | 7 => 181
  | 8 => 212 | 9 => 243 | 10 => 273 | 11 => 304 | 12 => 334 | _ => -1
  end.

(** A Python [bool] used as an [int]. *)
Definition b2z (b : bool) : Z := if b then 1 else 0.

(** The month and day part of [_ord2ymd], from the 0-based day [n] of the
    year and [leapyear]. *)
Definition ord2md (n : Z) (leapyear : bool) : Z * Z :=
  let month := Z.shiftr (n + 50) 5 in
  let preceding := days_before_month_table month + b2z ((2 <? month) && leapyear) in
  let '(month, preceding) :=
    if n <? preceding
    then (month - 1, preceding - (days_in_month_table (month - 1)
                                  + b2z ((month - 1 =? 2) && leapyear)))
    else (month, preceding) in
  (month, n - preceding + 1).

(** [_ord2ymd]: the [(year, month, day)] of the date of ordinal [n]. *)
Definition ord2ymd (n : Z) : Z * Z * Z :=
  let n := n - 1 in
  let n400 := n / 146097 in let n := n mod 146097 in
  let year := n400 * 400 + 1 in
  let n100 := n / 36524 in let n := n mod 36524 in
  let n4 := n / 1461 in let n := n mod 1461 in
  let n1 := n / 365 in let n := n mod 365 in
  let year := year + n100 * 100 + n4 * 4 + n1 in
  if (n1 =? 4) || (n100 =? 4) then (year - 1, 12, 31) else
  let leapyear := (n1 =? 3) && (negb (n4 =? 24) || (n100 =? 3)) in
  let '(month, day) := ord2md n leapyear in
  (year, month, day).

(** The ordinal of [date.max]. *)
Definition max_ordinal : Z := 3652059.

Fixpoint dec_aux (fuel : nat) (n : Z) (acc : string) : string :=
  match fuel with
  | O => acc
  | S f =>
      let acc' := String (ascii_of_nat (48 + Z.to_nat (n mod 10))) acc in
      if n <? 10 then acc' else dec_aux f (n / 10) acc'
  end.

(** [str(n)] for [0 <= n < 10^20]. *)
Definition dec_string (n : Z) : string := dec_aux 20 n "".

Fixpoint zeros (k : nat) : string :=
  match k with O => "" | S k => String "0"%char (zeros k) end.

(** ["%0wd" % n] for [n >= 0]. *)
Definition pad_int (w : nat) (n : Z) : string :=
  let s := dec_string n in zeros (w - String.length s) ++ s.

(** [date.isoformat()]: ["%04d-%02d-%02d" % (year, month, day)]. *)
Definition isoformat (d : Z) : string :=
  let '(y, m, dd) := ord2ymd d in
  pad_int 4 y ++ "-" ++ pad_int 2 m ++ "-" ++ pad_int 2 dd.

(** ** [str()] of a stored value *)

(** [str(n)] for any [n >= 0]: a positive [n] has at most [log2 n + 1]
    decimal digits. *)
Definition dec_full (n : Z) : string := dec_aux (S (Z.to_nat (Z.log2 n))) n "".

(** [str(z)] of a Python [int]. *)
Definition int_str (z : Z) : string :=
  if z <? 0 then "-" ++ dec_full (- z) else dec_full z.

(** [10 ** k] as a rational, for any integer [k]. *)
Definition pow10Q (k : Z) : Q :=
  if 0 <=? k then inject_Z (10 ^ k) else 1 # Z.to_pos (10 ^ (- k)).

(** [m] without its trailing decimal zeros. *)
Fixpoint strip_zeros (fuel : nat) (m : Z) : Z :=
  match fuel with
  | O => m
  | S f => if (0 <? m) && (m mod 10 =? 0) then strip_zeros f (m / 10) else m
  end.

(** The layout of [float_repr_style = 'short'] for the digit string [ds]
    and the decimal point position [decpt] (value [0.ds * 10 ** decpt]):
    exponent notation when [decpt <= -4] or [decpt > 16], positional
    notation with at least one digit after the point otherwise. *)
Definition repr_digits (ds : string) (decpt : Z) : string :=
  let nd := Z.of_nat (String.length ds) in
  if (decpt <=? -4) || (16 <? decpt) then
    let x := decpt - 1 in
    String.substring 0 1 ds
    ++ (if 1 <? nd then "." ++ String.substring 1 (String.length ds - 1) ds else "")
    ++ "e" ++ (if x <? 0 then "-" else "+") ++ pad_int 2 (Z.abs x)
  else if decpt <=? 0 then "0." ++ zeros (Z.to_nat (- decpt)) ++ ds
  else if nd <=? decpt then ds ++ zeros (Z.to_nat (decpt - nd)) ++ ".0"
  else String.substring 0 (Z.to_nat decpt) ds ++ "."
       ++ String.substring (Z.to_nat decpt) (String.length ds - Z.to_nat decpt) ds.

(** [repr(x)] of a Python [float] holding the rational [q]: the digits are
    those of [q] cut at 17 significant digits, trailing zeros removed. This
    is Python's shortest round-trip repr for every [q] that is a decimal of
    at most 15 significant digits in the range of normal doubles (the
    floats [json.load] and the widgets give in practice). *)
Definition float_repr (q : Q) : string :=
  if Qeq_bool q 0 then "0.0" else
  let a := Qred (if Qle_bool 0 q then q else - q) in
  let n := Qnum a in
  let d := Zpos (Qden a) in
  let e := Z.of_nat (String.length (dec_full n)) - Z.of_nat (String.length (dec_full d)) + 1 in
  let decpt := if Qle_bool (pow10Q (e - 1)) a then e else e - 1 in
  let m := Qfloor (a * pow10Q (17 - decpt)) in
  (if Qle_bool 0 q then "" else "-") ++ repr_digits (dec_full (strip_zeros 17 m)) decpt.

(** [str(v)]. *)
Definition py_str (v : pyval) : string :=
  match v with
  | VNone => "None"
  | VBool b => if b then "True" else "False"
  | VInt z => int_str z
  | VFloat q => float_repr q
  | VStr s => s
  | VDate d => isoformat d
  end.

(** ** Widgets of the editable rows (lines 242-258)

    A run in which the user has not touched the row widgets: each widget
    returns the [value] it is given, as the widget holds it.
    [st.text_input] holds [str(value)] for a [value] other than [None]
    (a stored name [5] comes back as ["5"]); [st.number_input] refuses a
    [value] below [min_value=0.0]; [st.date_input] needs a date. *)

Definition text_input (v : pyval) : res pyval :=
  match v with
  | VNone => Ok VNone
  | _ => Ok (VStr (py_str v))
  end.

Definition number_input (q : Q) : res Q :=
  if Qle_bool 0 q then Ok q else Err StreamlitAPIException.

Definition date_input (v : pyval) : res Z :=
  match v with VDate d => Ok d | _ => Err StreamlitAPIException end.

(** One iteration of the render loop: the widgets write their values back
    into the goal dict. *)
Definition render_goal (g : goal) : res goal :=
  let* n := getitem (name g) in
  let* n' := text_input n in
  let* tv := getitem (target g) in
  let* t := py_float tv in
  let* t' := number_input t in
  let* dv := getitem (deadline g) in
  let* d := date_input dv in
  let* s := py_float (match saved_so_far g with Some v => v | None => VFloat 0 end) in
  let* s' := number_input s in
  Ok {| name := Some n'; target := Some (VFloat t'); deadline := Some (VDate d);
        created := created g; saved_so_far := Some (VFloat s'); extra := extra g |}.

(** ** The DataFrame (lines 295-300) *)

(** [pd.to_numeric(x, errors="coerce").fillna(0.0)] on one cell. *)
Definition to_numeric_coerce (v : pyval) : Q :=
  match v with
  | VFloat q => q
  | VInt z => inject_Z z
  | VBool b => if b then 1 else 0
  | VStr s => match parse_float s with Some q => q | None => 0 end
  | VNone | VDate _ => 0
  end.

Definition epoch_ordinal : Z := ymd2ord 1970 1 1.

Definition ns_per_day : Z := 86400 * 10 ^ 9.

(** [pd.to_datetime(x).dt.date] on one cell: a date is kept, a number is
    read as nanoseconds since the epoch, a string is parsed. Strings and
    [None] do not reach this point (normalization replaced them), booleans
    raise. *)
Definition to_datetime_date (v : pyval) : res Z :=
  match v with
  | VDate d => Ok d
  | VInt n => Ok (epoch_ordinal + n / ns_per_day)
  | VFloat q => Ok (epoch_ordinal + Qfloor (q / inject_Z ns_per_day))
  | VStr s => match fromisoformat s with Some d => Ok d | None => Err ValueError end
  | VBool _ | VNone => Err TypeError
  end.

(** A row of [df] before the allocation columns are added. *)
Record row : Type := mkRow {
  row_name : pyval;
  row_target : Q;
  row_deadline : Z;
  row_created : Z;
  row_saved_so_far : Q
}.

Definition to_row (g : goal) : res row :=
  let* n := getitem (name g) in
  let* dv := getitem (deadline g) in
  let* d := to_datetime_date dv in
  let* cv := getitem (created g) in
  let* c := to_datetime_date cv in
  let* tv := getitem (target g) in
  let* sv := getitem (saved_so_far g) in
  Ok {| row_name := n; row_target := to_numeric_coerce tv; row_deadline := d;
        row_created := c; row_saved_so_far := to_numeric_coerce sv |}.

(** ** Pay frequency (lines 204-210) *)

(** The options of the [Pay frequency] selectbox of line 204. *)
Definition freq_options : list string :=
  ["Bi-weekly (14d)"; "Weekly (7d)"; "Monthly (30d)"].

Definition days_between_paychecks_of (freq : string) : Z :=
  if String.prefix "Weekly" freq then 7
  else if String.prefix "Monthly" freq then 30
  else 14.

(** ** Python arithmetic helpers *)

(** [max(a, b)]: [b] only when [b > a]. *)
Definition py_max (a b : Z) : Z := if a <? b then b else a.

Definition Qltb (a b : Q) : bool := negb (Qle_bool b a).

Definition py_maxQ (a b : Q) : Q := if Qltb a b then b else a.

(** [math.ceil(d / k)] for integers [d] and [k > 0] (the float quotient is
    exact enough for day counts of [datetime] dates). *)
Definition ceil_div (d k : Z) : Z := - ((- d) / k).

(** ** Allocation columns (lines 302-331) *)

Record alloc : Type := mkAlloc {
  a_row : row;
  days_until_deadline : Z;
  paychecks_left : Z;
  total_paychecks : Z;
  paychecks_elapsed : Z;
  planned_per_paycheck : Q;
  auto_saved : Q;
  effective_saved : Q;
  remaining : Q;
  per_paycheck : Q
}.

Definition alloc_row (days_between_paychecks pay_date : Z) (r : row) : alloc :=
  let d_until := row_deadline r - pay_date in
  let n_left := py_max (ceil_div d_until days_between_paychecks) 1 in
  let total := py_max (ceil_div (py_max (row_deadline r - row_created r) 0)
                         days_between_paychecks) 1 in
  let elapsed := py_max (total - n_left) 0 in
  let planned := if 0 <? total then (row_target r / inject_Z total)%Q else 0%Q in
  let auto := (planned * inject_Z elapsed)%Q in
  let eff := if Qltb 0 (row_saved_so_far r) then row_saved_so_far r else auto in
  let rem := py_maxQ (row_target r - eff) 0 in
  let per := if 0 <? n_left then (rem / inject_Z n_left)%Q else rem in
  {| a_row := r; days_until_deadline := d_until; paychecks_left := n_left;
     total_paychecks := total; paychecks_elapsed := elapsed;
     planned_per_paycheck := planned; auto_saved := auto;
     effective_saved := eff; remaining := rem; per_paycheck := per |}.

(** [df["per_paycheck"].sum()]. *)
Definition sum_per_paycheck (l : list alloc) : Q :=
  fold_left (fun acc a => (acc + per_paycheck a)%Q) l 0%Q.

(** Lines 302-335: the allocation columns, [total_allocations] and
    [leftover]. *)
Definition allocate (paycheck : Q) (days_between_paychecks pay_date : Z)
    (rows : list row) : list alloc * Q * Q :=
  let df := map (alloc_row days_between_paychecks pay_date) rows in
  let total_allocations := sum_per_paycheck df in
  (df, total_allocations, py_maxQ (paycheck - total_allocations) 0).

(** ** Write-back (lines 390-402) *)

Definition writeback_goal (orig : goal) (a : alloc) : goal :=
  let r := a_row a in
  {| name := Some (row_name r);
     target := Some (VFloat (row_target r));
     deadline := Some (VDate (row_deadline r));
     created := Some (VDate (row_created r));
     saved_so_far := Some (VFloat (effective_saved a));
     extra := extra orig |}.

Fixpoint writeback (origs : list goal) (df : list alloc) : list goal :=
  match origs, df with
  | o :: os, a :: as_ => writeback_goal o a :: writeback os as_
  | _, _ => []
  end.

(** ** The script's globals and one run *)

(** The module-level variables the allocation reads or shadows. *)
Record globals : Type := mkGlobals {
  paycheck : Q;
  additional_income : Q;
  total_money : Q;
  days_between_paychecks : Z
}.

(** Lines 18-29: the inputs at the top of the script. *)
Definition top_inputs (paycheck0 additional_income0 : Q) (pay_frequency : string)
    : globals :=
  {| paycheck := paycheck0;
     additional_income := additional_income0;
     total_money := (paycheck0 + additional_income0)%Q;
     days_between_paychecks :=
       if String.eqb pay_frequency "Weekly" then 7
       else if String.eqb pay_frequency "Monthly" then 30
       else 14 |}.

(** Lines 198-210: [paycheck] and [days_between_paychecks] are rebound. *)
Definition paycheck_inputs (gl : globals) (paycheck1 : Q) (freq : string) : globals :=
  {| paycheck := paycheck1;
     additional_income := additional_income gl;
     total_money := total_money gl;
     days_between_paychecks := days_between_paychecks_of freq |}.

Record output : Type := mkOutput {
  df : list alloc;
  total_allocations : Q;
  leftover : Q;
  new_expenses : list goal
}.

(** Lines 217-406 for a non-empty goal list (an empty one is replaced by the
    defaults at line 179 and the run restarts), with no button pressed. *)
Definition engine (today : Z) (gl : globals) (pay_date : Z) (expenses : list goal)
    : res output :=
  let normalized := map (normalize_goal today) expenses in
  let* rendered := map_res render_goal normalized in
  let* rows := map_res to_row rendered in
  let '(df, total, lo) :=
    allocate (paycheck gl) (days_between_paychecks gl) pay_date rows in
  Ok {| df := df; total_allocations := total; leftover := lo;
        new_expenses := writeback rendered df |}.

(** A whole run of the script for a logged-in user. *)
Definition script (today : Z) (paycheck0 additional_income0 : Q)
    (pay_frequency : string) (paycheck1 : Q) (pay_date : Z) (freq : string)
    (expenses : list goal) : res output :=
  let gl0 := top_inputs paycheck0 additional_income0 pay_frequency in
  let gl1 := paycheck_inputs gl0 paycheck1 freq in
  engine today gl1 pay_date expenses.

(** [created] of a goal dict holds a date. *)
Definition created_is_date (g : goal) : bool :=
  match created g with Some (VDate _) => true | _ => false end.

(** [g] with its [saved_so_far] key set to [v]. *)
Definition set_saved (g : goal) (v : pyval) : goal :=
  {| name := name g; target := target g; deadline := deadline g;
     created := created g; saved_so_far := Some v; extra := extra g |}.

(** A date field given explicitly: a date, or a string [fromisoformat]
    accepts. *)
Definition date_explicit (o : option pyval) : bool :=
  match o with
  | Some (VDate _) => true
  | Some (VStr s) => match fromisoformat s with Some _ => true | None => false end
  | _ => false
  end.

Definition goal_dates_explicit (g : goal) : bool :=
  date_explicit (deadline g) && date_explicit (created g).

(** [r] with another [saved_so_far] cell. *)
Definition with_saved (r : row) (q : Q) : row :=
  {| row_name := row_name r; row_target := row_target r;
     row_deadline := row_deadline r; row_created := row_created r;
     row_saved_so_far := q |}.

(** ** Add New Goal (lines 275-286) *)

(** The goal dict appended by the [Add New Goal] button. *)
Definition new_goal (today : Z) : goal :=
  {| name := Some (VStr "New Goal"); target := Some (VFloat 0);
     deadline := Some (VDate today); created := Some (VDate today);
     saved_so_far := Some (VFloat 0); extra := [] |}.

(** ** Progress bars (lines 355-365) *)

(** Python's [min(a, b)]: [a] unless [b < a]. *)
Definition py_minQ (a b : Q) : Q := if Qltb b a then b else a.

(** [int(x)] on a float: truncation toward zero. *)
Definition py_int (q : Q) : Z := if Qle_bool 0 q then Qfloor q else - Qfloor (- q).

(** [prog] of one row: [effective_saved / target] clipped to [0..1], and
    [0.0] when the target is not positive. *)
Definition progress (a : alloc) : Q :=
  let t := row_target (a_row a) in
  if Qltb 0 t then py_minQ (py_maxQ (effective_saved a / t) 0) 1 else 0.

(** The percentage [int(prog*100)] written beside the bar. *)
Definition progress_percent (a : alloc) : Z := py_int (progress a * 100).

(** ** Allocation pie (lines 367-382) *)

Definition py_num (v : pyval) : option Q :=
  match v with
  | VBool b => Some (if b then 1 else 0)%Q
  | VInt z => Some (inject_Z z)
  | VFloat q => Some q
  | _ => None
  end.

(** Python's [==] between two dict keys: [True == 1 == 1.0], a string
    equals only a string, a date only a date. *)
Definition py_key_eqb (a b : pyval) : bool :=
  match a, b with
  | VNone, VNone => true
  | VStr s, VStr t => String.eqb s t
  | VDate d, VDate e => Z.eqb d e
  | _, _ => match py_num a, py_num b with
            | Some x, Some y => Qeq_bool x y
            | _, _ => false
            end
  end.

(** A dict from names to floats, in insertion order. *)
Definition pydict : Type := list (pyval * Q).

(** [d[k] = v]: an equal key keeps its place (and the key object first
    inserted) and gets the new value; a new key goes last. *)
Fixpoint dict_set (d : pydict) (k : pyval) (v : Q) : pydict :=
  match d with
  | [] => [(k, v)]
  | (k', v') :: rest =>
      if py_key_eqb k' k then (k', v) :: rest else (k', v') :: dict_set rest k v
  end.

(** [d.get(k)]. *)
Fixpoint dict_get (d : pydict) (k : pyval) : option Q :=
  match d with
  | [] => None
  | (k', v) :: rest => if py_key_eqb k' k then Some v else dict_get rest k
  end.

(** [df.set_index("name")["per_paycheck"].to_dict()]: the items of the
    series inserted in row order. *)
Definition series_to_dict (df : list alloc) : pydict :=
  fold_left (fun d a => dict_set d (row_name (a_row a)) (per_paycheck a)) df [].

(** [allocations] after line 371. *)
Definition pie_allocations (df : list alloc) (leftover : Q) : pydict :=
  let allocations := series_to_dict df in
  if Qltb 0 leftover then dict_set allocations (VStr "Leftover") leftover
  else allocations.

(** [allocations_nonzero]. *)
Definition allocations_nonzero (allocations : pydict) : pydict :=
  filter (fun kv => Qltb 0 (snd kv)) allocations.

(** What lines 373-382 show: nothing, the [st.info] message, or a pie with
    the given slices. *)
Inductive pie_view : Type :=
| NoPie
| PieInfo
| PieChart (slices : pydict).

Definition pie_chart (df : list alloc) (leftover : Q) : pie_view :=
  match pie_allocations df leftover with
  | [] => NoPie
  | allocations =>
      match allocations_nonzero allocations with
      | [] => PieInfo
      | slices => PieChart slices
      end
  end.

Definition sum_values (d : pydict) : Q := fold_right (fun kv acc => (snd kv + acc)%Q) 0%Q d.

(** The [per_paycheck] of the last row whose name equals [k]. *)
Definition last_per_paycheck (df : list alloc) (k : pyval) : option Q :=
  fold_left (fun acc a => if py_key_eqb (row_name (a_row a)) k
                          then Some (per_paycheck a) else acc) df None.

(** ** Persistence of the users (lines 34-82) *)


(** Exhaustive checks over a range of integers, for the date arithmetic. *)
Fixpoint all_from (f : Z -> bool) (lo : Z) (k : nat) : bool :=
  match k with
  | O => true
  | S k => if f lo then all_from f (lo + 1) k else false
  end.

(** [ord2md] on day [r] of a year agrees with [days_in_month] and
    [days_before_month] (year 4 is a leap year, year 1 is not). *)
Definition md_ok (leapyear : bool) (r : Z) : bool :=
  let y := if leapyear then 4 else 1 in
  let '(m, d) := ord2md r leapyear in
  (1 <=? m) && (m <=? 12) && (1 <=? d) && (d <=? days_in_month y m)
  && (days_before_month y m + d - 1 =? r).

(** [pad_int w n] has [w] digits and reads back as [n]. *)
Definition pad_ok (w : nat) (n : Z) : bool :=
  Nat.eqb (String.length (pad_int w n)) w &&
  match digits_val 0 (pad_int w n) with Some k => k =? n | None => false end.

(** A user record of the users dict: the keys ["name"], ["password"] and
    ["expenses"] ([None] = key absent), and the other keys. *)
Record user : Type := mkUser {
  u_name : option pyval;
  u_password : option pyval;
  u_expenses : option (list goal);
  u_extra : list (string * pyval)
}.

(** The users dict (username to user record), in insertion order. *)
Definition users : Type := list (string * user).

Fixpoint users_get (us : users) (k : string) : option user :=
  match us with
  | [] => None
  | (k', u) :: rest => if String.eqb k' k then Some u else users_get rest k
  end.

(** [users[k] = u]. *)
Fixpoint users_set (us : users) (k : string) (u : user) : users :=
  match us with
  | [] => [(k, u)]
  | (k', u') :: rest =>
      if String.eqb k' k then (k', u) :: rest else (k', u') :: users_set rest k u
  end.

(** [users.json]: the JSON object [json.dump] wrote, or a text [json.load]
    rejects. A value goes through [json.dump] and [json.load] unchanged
    (floats are read back exactly). *)
Inductive users_file : Type :=
| UsersJson (us : users)
| Corrupt.

(** The file system as the script sees it: [None] when [users.json] does
    not exist. *)
Definition fs : Type := option users_file.

(** Lines 72-75 on one date key. *)
Definition save_date (o : option pyval) : option pyval :=
  match o with
  | Some (VDate d) => Some (VStr (isoformat d))
  | _ => o
  end.

Definition save_goal (g : goal) : goal :=
  {| name := name g; target := target g; deadline := save_date (deadline g);
     created := save_date (created g); saved_so_far := saved_so_far g;
     extra := extra g |}.

(** [users_copy[username]]: a copy of the record whose ["expenses"] key is
    set to the converted goals. *)
Definition save_user (u : user) : user :=
  {| u_name := u_name u; u_password := u_password u;
     u_expenses := Some (map save_goal (match u_expenses u with Some es => es | None => [] end));
     u_extra := u_extra u |}.

(** [json.dump] accepts [None], booleans, numbers and strings; a date left
    in the dict raises [TypeError]. *)
Definition json_ok (v : pyval) : bool :=
  match v with VDate _ => false | _ => true end.

Definition json_ok_opt (o : option pyval) : bool :=
  match o with Some v => json_ok v | None => true end.

Definition goal_json_ok (g : goal) : bool :=
  json_ok_opt (name g) && json_ok_opt (target g) && json_ok_opt (deadline g)
  && json_ok_opt (created g) && json_ok_opt (saved_so_far g)
  && forallb (fun kv => json_ok (snd kv)) (extra g).

Definition user_json_ok (u : user) : bool :=
  json_ok_opt (u_name u) && json_ok_opt (u_password u)
  && forallb goal_json_ok (match u_expenses u with Some es => es | None => [] end)
  && forallb (fun kv => json_ok (snd kv)) (u_extra u).

(** [save_users]: the new file, and the [TypeError] of [json.dump] on a
    value it cannot serialize, which leaves a truncated file behind. *)
Definition save_users (us : users) : fs * res unit :=
  let users_copy := map (fun ku => (fst ku, save_user (snd ku))) us in
  if forallb (fun ku => user_json_ok (snd ku)) users_copy
  then (Some (UsersJson users_copy), Ok tt)
  else (Some Corrupt, Err TypeError).

(** Lines 48-57 on one date key. *)
Definition load_date (today : Z) (o : option pyval) : option pyval :=
  match o with
  | Some (VStr s) =>
      Some (VDate (match fromisoformat s with Some d => d | None => today end))
  | _ => o
  end.

Definition load_goal (today : Z) (g : goal) : goal :=
  {| name := name g;
     target := match target g with None => Some (VFloat 0) | o => o end;
     deadline := load_date today (deadline g);
     created := load_date today (created g);
     saved_so_far := match saved_so_far g with None => Some (VFloat 0) | o => o end;
     extra := extra g |}.

Definition load_user (today : Z) (u : user) : user :=
  match u_expenses u with
  | None => u
  | Some es =>
      {| u_name := u_name u; u_password := u_password u;
         u_expenses := Some (map (load_goal today) es); u_extra := u_extra u |}
  end.

(** [load_users]: [{}] when the file is missing or not JSON. *)
Definition load_users (today : Z) (f : fs) : users :=
  match f with
  | None | Some Corrupt => []
  | Some (UsersJson us) => map (fun ku => (fst ku, load_user today (snd ku))) us
  end.

(** A date key the save and the next load give back unchanged: absent, a
    date of the calendar, or a value that is neither a date nor a string. *)
Definition date_storable (o : option pyval) : bool :=
  match o with
  | Some (VDate d) => (1 <=? d) && (d <=? max_ordinal)
  | Some (VStr _) => false
  | _ => true
  end.

Definition goal_storable (g : goal) : bool :=
  date_storable (deadline g) && date_storable (created g)
  && match target g with Some _ => true | None => false end
  && match saved_so_far g with Some _ => true | None => false end
  && json_ok_opt (name g) && json_ok_opt (target g) && json_ok_opt (saved_so_far g)
  && forallb (fun kv => json_ok (snd kv)) (extra g).

Definition user_storable (u : user) : bool :=
  json_ok_opt (u_name u) && json_ok_opt (u_password u)
  && forallb goal_storable (match u_expenses u with Some es => es | None => [] end)
  && forallb (fun kv => json_ok (snd kv)) (u_extra u).

(** [u] with its ["expenses"] key present (as [save_users] writes it). *)
Definition ensure_expenses (u : user) : user :=
  {| u_name := u_name u; u_password := u_password u;
     u_expenses := Some (match u_expenses u with Some es => es | None => [] end);
     u_extra := u_extra u |}.

(** ** One run of the logged-in app (lines 162-190 and 217-406) *)

Definition obind {A B : Type} (o : option A) (f : A -> option B) : option B :=
  match o with Some a => f a | None => None end.

(** [d.replace(day=k)]; [None] is its [ValueError]. *)
Definition replace_day (d k : Z) : option Z :=
  let '(y, m, _) := ord2ymd d in
  if valid_ymd y m k then Some (ymd2ord y m k) else None.

(** [d + relativedelta(months=k)] for [|k| <= 12]: the month moves by [k],
    the day is clipped to the length of the new month; [None] is the
    [ValueError] of a year outside [1..9999]. *)
Definition add_months (d k : Z) : option Z :=
  let '(y, m, day) := ord2ymd d in
  let month := m + k in
  let '(year, month) :=
    if 12 <? month then (y + 1, month - 12)
    else if month <? 1 then (y - 1, month + 12)
    else (y, month) in
  if (1 <=? year) && (year <=? 9999)
  then Some (ymd2ord year month (Z.min day (days_in_month year month)))
  else None.

(** The default goals of lines 180-186; [None] is a [ValueError] of the
    date arithmetic. *)
Definition default_goals (today : Z) : option (list goal) :=
  let '(_, _, day) := ord2ymd today in
  obind (if day <=? 28 then replace_day today 28
         else obind (add_months today 1) (fun d => replace_day d 28)) (fun rent_deadline =>
  obind (add_months today (-2)) (fun two_months_ago =>
  obind (add_months today 6) (fun in_six_months =>
  Some [mkGoal (Some (VStr "Rent")) (Some (VFloat 1200)) (Some (VDate rent_deadline))
          (Some (VDate two_months_ago)) (Some (VFloat 0)) [];
        mkGoal (Some (VStr "Utilities")) (Some (VFloat 125)) (Some (VDate rent_deadline))
          (Some (VDate two_months_ago)) (Some (VFloat 0)) [];
        mkGoal (Some (VStr "Auto Insurance")) (Some (VFloat 500)) (Some (VDate in_six_months))
          (Some (VDate today)) (Some (VFloat 0)) []]))).

(** The record of line 167 for a logged-in user missing from the file. *)
Definition new_user_record (cu : string) : user :=
  {| u_name := Some (VStr cu); u_password := Some (VStr ""); u_expenses := Some [];
     u_extra := [] |}.

Definition with_user_expenses (u : user) (es : list goal) : user :=
  {| u_name := u_name u; u_password := u_password u; u_expenses := Some es;
     u_extra := u_extra u |}.

(** How a run ends: [st.experimental_rerun()] after the defaults were
    saved, the end of the script, or an uncaught exception. *)
Inductive run_end : Type :=
| Rerun
| Finished (out : output)
| Raised (e : py_error).

(** One run for the logged-in user [cu] with no button pressed and the
    widgets untouched: the file afterwards and how the run ended. The goal
    dicts are shared between [users] and [st.session_state.expenses], so
    the saves of lines 290 and 404 store the goals as normalized and
    rendered, then as written back. *)
Definition app_run (today : Z) (gl : globals) (pay_date : Z) (cu : string) (f : fs)
    : fs * run_end :=
  let us := load_users today f in
  let u := match users_get us cu with Some u => u | None => new_user_record cu end in
  let es := match u_expenses u with Some es => es | None => [] end in
  let store es := users_set us cu (with_user_expenses u es) in
  match es with
  | [] =>
      match default_goals today with
      | None => (f, Raised ValueError)
      | Some ds =>
          let '(f1, r) := save_users (store ds) in
          (f1, match r with Ok _ => Rerun | Err e => Raised e end)
      end
  | _ :: _ =>
      match map_res render_goal (map (normalize_goal today) es) with
      | Err e => (f, Raised e)
      | Ok rendered =>
          let '(f1, r1) := save_users (store rendered) in
          match r1 with
          | Err e => (f1, Raised e)
          | Ok _ =>
              match engine today gl pay_date es with
              | Err e => (f1, Raised e)
              | Ok out =>
                  let '(f2, r2) := save_users (store (new_expenses out)) in
                  (f2, match r2 with Ok _ => Finished out | Err e => Raised e end)
              end
          end
      end
  end.

(** A date key as [save_users] writes it: absent or a string. *)
Definition date_in_file (o : option pyval) : bool :=
  match o with None | Some (VStr _) => true | _ => false end.

Definition goal_in_file (g : goal) : bool :=
  goal_json_ok g && date_in_file (deadline g) && date_in_file (created g).

Definition user_in_file (u : user) : bool :=
  json_ok_opt (u_name u) && json_ok_opt (u_password u)
  && forallb goal_in_file (match u_expenses u with Some es => es | None => [] end)
  && forallb (fun kv => json_ok (snd kv)) (u_extra u).

(** A users file whose goal dates are stored as strings (or absent). *)
Definition file_ok (f : fs) : bool :=
  match f with
  | Some (UsersJson us) => forallb (fun ku => user_in_file (snd ku)) us
  | _ => true
  end.

(** ** Accounts (lines 87-100)

    [bcrypt] is a parameter: [hashpw password salt] is the hash
    [bcrypt.hashpw] returns for the salt [bcrypt.gensalt()] drew, and
    [checkpw password hash] the result of [bcrypt.checkpw], [None] when it
    raises (as on a malformed hash). *)

Section Accounts.

Variable hashpw : string -> string -> string.
Variable checkpw : string -> string -> option bool.

(** [sign_up(username, password, name)] with the salt [salt]: the new file
    and the returned pair, or the exception of [save_users]. *)
Definition sign_up (today : Z) (salt username password nm : string) (f : fs)
    : fs * res (bool * string) :=
  let us := load_users today f in
  match users_get us username with
  | Some _ => (f, Ok (false, "Username already exists"))
  | None =>
      let us' := users_set us username
                   {| u_name := Some (VStr nm);
                      u_password := Some (VStr (hashpw password salt));
                      u_expenses := Some []; u_extra := [] |} in
      let '(f', r) := save_users us' in
      (f', let* _ := r in Ok (true, "Account created successfully"))
  end.

(** [authenticate(username, password)]; [None] is an exception
    ([KeyError] on a record without a password, [AttributeError] on a
    password that is not a string, or one raised by [bcrypt.checkpw]). *)
Definition authenticate (today : Z) (username password : string) (f : fs)
    : option (bool * option user) :=
  let us := load_users today f in
  match users_get us username with
  | None => Some (false, None)
  | Some u =>
      match u_password u with
      | Some (VStr h) =>
          match checkpw password h with
          | Some true => Some (true, Some u)
          | Some false => Some (false, None)
          | None => None
          end
      | _ => None
      end
  end.

End Accounts.

(** ** Example inputs *)

(** A stored goal whose dates are ISO strings and whose [saved_so_far] key
    is absent, with a bi-weekly paycheck of 1000 on 2024-01-15. *)
Definition example_goal : goal :=
  mkGoal (Some (VStr "Rent")) (Some (VFloat 1200)) (Some (VStr "2024-01-29"))
    (Some (VStr "2024-01-01")) None [("note", VStr "monthly")].

Definition example_globals : globals := mkGlobals 1000 0 1000 14.

Definition example_pay_date : Z := ymd2ord 2024 1 15.

(** A stored goal whose [target] is JSON [null]. *)
Definition example_goal_null_target : goal :=
  mkGoal (Some (VStr "Rent")) (Some VNone) (Some (VStr "2024-01-29"))
    (Some (VStr "2024-01-01")) (Some (VFloat 0)) [].

(** A second goal, with a different name and a positive [saved_so_far]. *)
Definition example_goal_car : goal :=
  mkGoal (Some (VStr "Car")) (Some (VFloat 3000)) (Some (VStr "2024-06-30"))
    (Some (VStr "2024-01-01")) (Some (VFloat 500)) [].

(** A goal as it is held in memory after loading, with a date object. *)
Definition example_goal_loaded : goal :=
  mkGoal (Some (VStr "Rent")) (Some (VFloat 1200)) (Some (VDate (ymd2ord 2024 1 29)))
    None (Some (VFloat 0)) [].

(** A users file with one account holding [example_goal]. *)
Definition example_user : user :=
  {| u_name := Some (VStr "alice"); u_password := Some (VStr "$2b$12$hash");
     u_expenses := Some [example_goal]; u_extra := [] |}.

Definition example_file : fs := Some (UsersJson [("alice", example_user)]).

(** ** Generic facts *)

Lemma bind_ok {A B : Type} (m : res A) (f : A -> res B) (b : B) :
  bind m f = Ok b -> exists a, m = Ok a /\ f a = Ok b.
Proof. destruct m; simpl; [eauto | discriminate]. Qed.

Ltac unbind H :=
  repeat (apply bind_ok in H;
          let a := fresh "a" in let Ha := fresh "Ha" in destruct H as (a & Ha & H)).

Ltac ok_inv :=
  repeat match goal with
         | H : Ok _ = Ok _ |- _ => injection H; clear H; intro H; try subst
         end.

Lemma map_res_Forall2 {A B : Type} (f : A -> res B) (l : list A) (l' : list B) :
  map_res f l = Ok l' -> Forall2 (fun x y => f x = Ok y) l l'.
Proof.
  revert l'; induction l as [|x xs IH]; intros l' H; simpl in H.
  - injection H as <-; constructor.
  - destruct (f x) as [y|e] eqn:Ef; simpl in H; [|discriminate].
    destruct (map_res f xs) as [ys|e] eqn:Exs; simpl in H; [|discriminate].
    injection H as <-; constructor; auto.
Qed.

Lemma Forall2_map_r {A B C : Type} (P : A -> C -> Prop) (f : B -> C)
    (l : list A) (l' : list B) :
  Forall2 (fun x y => P x (f y)) l l' -> Forall2 P l (map f l').
Proof. induction 1; simpl; constructor; auto. Qed.

Lemma Forall2_map_l {A B C : Type} (R : B -> C -> Prop) (f : A -> B)
    (l : list A) (l' : list C) :
  Forall2 R (map f l) l' <-> Forall2 (fun x y => R (f x) y) l l'.
Proof.
  split.
  - revert l'; induction l; intros l' H; inversion H; subst; constructor; auto.
  - induction 1; simpl; constructor; auto.
Qed.

Lemma Forall2_compose_ex {A B C : Type} (R1 : A -> B -> Prop) (R2 : B -> C -> Prop)
    (l : list A) (m : list B) (n : list C) :
  Forall2 R1 l m -> Forall2 R2 m n ->
  Forall2 (fun x z => exists y, R1 x y /\ R2 y z) l n.
Proof.
  intro H1; revert n; induction H1; intros n H2; inversion H2; subst;
    constructor; eauto.
Qed.

Lemma Forall2_in_right {A B : Type} (R : A -> B -> Prop) (l : list A) (l' : list B)
    (y : B) :
  Forall2 R l l' -> In y l' -> exists x, In x l /\ R x y.
Proof.
  induction 1 as [|x y' xs ys Hxy _ IH]; simpl; [tauto|].
  intros [<-|Hin]; [exists x; auto|].
  destruct (IH Hin) as (x' & Hx' & Hr); exists x'; auto.
Qed.

Lemma py_max_ge_r (a b : Z) : b <= py_max a b.
Proof. unfold py_max; destruct (a <? b) eqn:E; [lia|]; apply Z.ltb_ge in E; lia. Qed.

Lemma py_max_le (a b c : Z) : a <= c -> b <= c -> py_max a b <= c.
Proof. unfold py_max; destruct (a <? b); lia. Qed.

Lemma Qltb_true (a b : Q) : Qltb a b = true <-> (a < b)%Q.
Proof.
  unfold Qltb; rewrite negb_true_iff; split; intro H.
  - apply Qnot_le_lt; intro H'; apply Qle_bool_iff in H'; congruence.
  - destruct (Qle_bool b a) eqn:E; [|reflexivity].
    apply Qle_bool_iff in E; exfalso; apply (Qlt_not_le a b); assumption.
Qed.

Lemma Qltb_false (a b : Q) : Qltb a b = false <-> (b <= a)%Q.
Proof.
  unfold Qltb; rewrite negb_false_iff; apply Qle_bool_iff.
Qed.

Lemma py_maxQ_nonneg (x : Q) : (0 <= py_maxQ x 0)%Q.
Proof.
  unfold py_maxQ; destruct (Qltb x 0) eqn:E.
  - apply Qle_refl.
  - apply Qltb_false in E; exact E.
Qed.

Lemma py_maxQ_neg (x : Q) : (x < 0)%Q -> py_maxQ x 0 = 0%Q.
Proof. intro H; unfold py_maxQ; apply Qltb_true in H; rewrite H; reflexivity. Qed.

Lemma days_between_paychecks_of_pos (freq : string) :
  0 < days_between_paychecks_of freq.
Proof.
  unfold days_between_paychecks_of.
  destruct (String.prefix "Weekly" freq); [lia|].
  destruct (String.prefix "Monthly" freq); lia.
Qed.

(** [ceil_div] is the ceiling of the quotient. *)
Lemma ceil_div_spec (d k : Z) :
  0 < k -> k * (ceil_div d k - 1) < d <= k * ceil_div d k.
Proof.
  intro Hk; unfold ceil_div.
  pose proof (Z.div_mod (- d) k ltac:(lia)) as Hdm.
  pose proof (Z.mod_pos_bound (- d) k Hk) as Hb.
  nia.
Qed.

Lemma engine_ok (today : Z) (gl : globals) (pay_date : Z) (expenses : list goal)
    (out : output) :
  engine today gl pay_date expenses = Ok out ->
  exists rendered rows,
    map_res render_goal (map (normalize_goal today) expenses) = Ok rendered /\
    map_res to_row rendered = Ok rows /\
    df out = map (alloc_row (days_between_paychecks gl) pay_date) rows /\
    total_allocations out = sum_per_paycheck (df out) /\
    leftover out = py_maxQ (paycheck gl - total_allocations out) 0 /\
    new_expenses out = writeback rendered (df out).
Proof.
  unfold engine.
  destruct (map_res render_goal (map (normalize_goal today) expenses))
    as [rendered|e] eqn:E1; simpl; [|discriminate].
  destruct (map_res to_row rendered) as [rows|e] eqn:E2; simpl; [|discriminate].
  intro H; injection H as <-.
  exists rendered, rows; simpl; repeat split; auto.
Qed.

(** The per-goal pipeline from a stored goal dict to its [df] row. *)
Lemma engine_rows (today : Z) (gl : globals) (pay_date : Z) (expenses : list goal)
    (out : output) :
  engine today gl pay_date expenses = Ok out ->
  Forall2 (fun g a => exists rg,
             render_goal (normalize_goal today g) = Ok rg /\ to_row rg = Ok (a_row a) /\
             a = alloc_row (days_between_paychecks gl) pay_date (a_row a))
    expenses (df out).
Proof.
  intro H; destruct (engine_ok _ _ _ _ _ H)
    as (rendered & rows & E1 & E2 & Edf & _ & _ & _).
  rewrite Edf; clear Edf; apply Forall2_map_r.
  apply map_res_Forall2 in E1; apply map_res_Forall2 in E2.
  rewrite Forall2_map_l in E1.
  eapply Forall2_compose_ex in E2; [|exact E1].
  eapply Forall2_impl; [|exact E2].
  intros g r (rg & Hg & Hr); exists rg; simpl; auto.
Qed.

(** A goal dict without a [saved_so_far] key gets [0] in its row. *)
Lemma row_saved_absent (today : Z) (g rg : goal) (r : row) :
  saved_so_far g = None -> render_goal (normalize_goal today g) = Ok rg ->
  to_row rg = Ok r -> row_saved_so_far r = 0%Q.
Proof.
  intros Hs Hr Ht.
  unfold render_goal in Hr; unbind Hr; injection Hr as <-.
  unfold normalize_goal in *; simpl in *; rewrite Hs in *; simpl in *.
  ok_inv; unfold number_input in *; simpl in *; ok_inv.
  unfold to_row in Ht; unbind Ht; simpl in *; ok_inv; reflexivity.
Qed.

(** ** Facts about one row of the allocation *)

Lemma alloc_row_counts (k p : Z) (r : row) :
  let a := alloc_row k p r in
  1 <= paychecks_left a /\ 1 <= total_paychecks a /\
  0 <= paychecks_elapsed a /\ paychecks_elapsed a <= total_paychecks a - 1.
Proof.
  cbv zeta; simpl.
  pose proof (py_max_ge_r (ceil_div (row_deadline r - p) k) 1).
  pose proof (py_max_ge_r (ceil_div (py_max (row_deadline r - row_created r) 0) k) 1).
  repeat split; try lia.
  - apply py_max_ge_r.
  - apply py_max_le; lia.
Qed.

Lemma alloc_row_amounts (k p : Z) (r : row) :
  let a := alloc_row k p r in
  planned_per_paycheck a =
    (if 0 <? total_paychecks a
     then row_target r / inject_Z (total_paychecks a) else 0)%Q /\
  auto_saved a = (planned_per_paycheck a * inject_Z (paychecks_elapsed a))%Q /\
  effective_saved a =
    (if Qltb 0 (row_saved_so_far r) then row_saved_so_far r else auto_saved a) /\
  remaining a = py_maxQ (row_target r - effective_saved a) 0 /\
  per_paycheck a =
    (if 0 <? paychecks_left a
     then remaining a / inject_Z (paychecks_left a) else remaining a)%Q /\
  a_row a = r.
Proof. repeat split. Qed.

Lemma inject_Z_pos (z : Z) : 1 <= z -> (0 < inject_Z z)%Q.
Proof. intro H; unfold Qlt; simpl; lia. Qed.

Lemma render_goal_shape (g rg : goal) :
  render_goal g = Ok rg ->
  exists n t d sv, rg = {| name := Some n; target := Some (VFloat t);
                           deadline := Some (VDate d); created := created g;
                           saved_so_far := Some (VFloat sv); extra := extra g |}.
Proof.
  intro H; unfold render_goal in H; unbind H; injection H as <-.
  do 4 eexists; reflexivity.
Qed.

Lemma writeback_set_saved (rendered : list goal) (rows : list row) (k p : Z) :
  map_res to_row rendered = Ok rows ->
  (forall rg, In rg rendered -> exists n t d sv c,
     rg = {| name := Some n; target := Some (VFloat t); deadline := Some (VDate d);
             created := Some (VDate c); saved_so_far := Some (VFloat sv);
             extra := extra rg |}) ->
  writeback rendered (map (alloc_row k p) rows) =
  map (fun q => set_saved (fst q) (VFloat (effective_saved (snd q))))
      (combine rendered (map (alloc_row k p) rows)).
Proof.
  intros H; apply map_res_Forall2 in H.
  induction H as [|rg r rgs rs Hr _ IH]; intro Hshape; simpl; [reflexivity|].
  rewrite IH by (intros; apply Hshape; right; assumption).
  f_equal.
  destruct (Hshape rg (or_introl eq_refl)) as (n & t & d & sv & c & Erg).
  rewrite Erg in Hr; unfold to_row in Hr; simpl in Hr; injection Hr as <-.
  rewrite Erg; reflexivity.
Qed.

Lemma normalize_date_explicit (t1 t2 : Z) (o : option pyval) :
  date_explicit o = true -> normalize_date t1 o = normalize_date t2 o.
Proof.
  destruct o as [v|]; [|discriminate]; destruct v as [| | | |s|d]; try discriminate;
    [|intros; reflexivity].
  intro Hx; unfold date_explicit in Hx.
  destruct (fromisoformat s) as [d|] eqn:E; [|discriminate].
  unfold normalize_date; simpl.
  destruct (String.eqb s "") eqn:Es; simpl.
  - apply String.eqb_eq in Es; subst; discriminate.
  - rewrite E; reflexivity.
Qed.

(** Claim-level theorems. *)

(** C1: in every row the engine produces, [auto_saved] is
    [planned_per_paycheck * paychecks_elapsed]; [effective_saved] is
    [saved_so_far] exactly when [saved_so_far > 0], and [auto_saved] when
    [saved_so_far] is [0] or absent from the goal dict. *)
Theorem effective_saved_rule (today : Z) (gl : globals) (pay_date : Z)
    (expenses : list goal) (out : output) :
  engine today gl pay_date expenses = Ok out ->
  Forall2 (fun g a =>
     auto_saved a = (planned_per_paycheck a * inject_Z (paychecks_elapsed a))%Q /\
     ((0 < row_saved_so_far (a_row a))%Q ->
        effective_saved a = row_saved_so_far (a_row a)) /\
     ((row_saved_so_far (a_row a) == 0)%Q -> effective_saved a = auto_saved a) /\
     (saved_so_far g = None -> effective_saved a = auto_saved a))
    expenses (df out).
Proof.
  intro H; apply engine_rows in H; eapply Forall2_impl; [|exact H].
  intros g a (rg & Hr & Ht & Ea).
  pose proof (alloc_row_amounts (days_between_paychecks gl) pay_date (a_row a))
    as (_ & Hauto & Heff & _).
  rewrite <- Ea in Hauto, Heff.
  repeat split.
  - exact Hauto.
  - intro Hs; apply Qltb_true in Hs; rewrite Heff, Hs; reflexivity.
  - intro Hs; rewrite Heff.
    assert (E : Qltb 0 (row_saved_so_far (a_row a)) = false)
      by (apply Qltb_false; lra).
    rewrite E; reflexivity.
  - intro Hs; rewrite Heff.
    rewrite (row_saved_absent today g rg (a_row a) Hs Hr Ht); reflexivity.
Qed.

(** C2: scenario B. Goal [{target: 1200, created: 2024-01-01,
    deadline: 2024-01-29, saved_so_far: 0}], bi-weekly pay (14 days),
    pay date 2024-01-15: [days_until_deadline = 14], [paychecks_left = 1],
    [total_paychecks = 2], [paychecks_elapsed = 1] and [planned_per_paycheck],
    [auto_saved], [effective_saved], [remaining], [per_paycheck] are all 600. *)
Theorem scenario_b :
  match script (ymd2ord 2024 1 15) 0 0 "Biweekly" 0 (ymd2ord 2024 1 15)
          "Bi-weekly (14d)"
          [mkGoal None (Some (VFloat 1200)) (Some (VStr "2024-01-29"))
             (Some (VStr "2024-01-01")) (Some (VFloat 0)) []] with
  | Ok out =>
      match df out with
      | [a] =>
          days_until_deadline a = 14 /\ paychecks_left a = 1 /\
          total_paychecks a = 2 /\ paychecks_elapsed a = 1 /\
          (planned_per_paycheck a == 600 /\ auto_saved a == 600 /\
           effective_saved a == 600 /\ remaining a == 600 /\
           per_paycheck a == 600)%Q
      | _ => False
      end
  | Err _ => False
  end.
Proof. vm_compute; repeat split; reflexivity. Qed.

(** C3: for every row and every date, whatever the order of [created],
    [deadline] and the pay date: [paychecks_left] and [total_paychecks] are
    the clamped ceilings of the source and are at least 1, and
    [paychecks_elapsed = max(total_paychecks - paychecks_left, 0) >= 0]. *)
Theorem paychecks_floors (freq : string) (pay_date : Z) (r : row) :
  let k := days_between_paychecks_of freq in
  let a := alloc_row k pay_date r in
  days_until_deadline a = row_deadline r - pay_date /\
  paychecks_left a = py_max (ceil_div (row_deadline r - pay_date) k) 1 /\
  total_paychecks a =
    py_max (ceil_div (py_max (row_deadline r - row_created r) 0) k) 1 /\
  paychecks_elapsed a = py_max (total_paychecks a - paychecks_left a) 0 /\
  1 <= paychecks_left a /\ 1 <= total_paychecks a /\ 0 <= paychecks_elapsed a.
Proof.
  intros k a.
  pose proof (alloc_row_counts k pay_date r) as (H1 & H2 & H3 & _).
  repeat split; auto.
Qed.

Lemma sum_per_paycheck_fold (l : list alloc) (z : Q) :
  (fold_left (fun acc a => acc + per_paycheck a) l z ==
   z + fold_right Qplus 0 (map per_paycheck l))%Q.
Proof.
  revert z; induction l as [|a l IH]; intro z; simpl.
  - ring.
  - rewrite IH; ring.
Qed.

(** An overshooting goal (target below saved_so_far) has nothing left. *)
Lemma overshoot_remaining (k p : Z) (r : row) :
  (row_target r < row_saved_so_far r)%Q ->
  remaining (alloc_row k p r) = 0%Q.
Proof.
  intro Hlt.
  pose proof (alloc_row_counts k p r) as (Hl & Ht & He & Het).
  pose proof (alloc_row_amounts k p r) as (Hpl & Hau & Heff & Hrem & _).
  set (a := alloc_row k p r) in *; clearbody a.
  rewrite Hrem; apply py_maxQ_neg.
  rewrite Heff; destruct (Qltb 0 (row_saved_so_far r)) eqn:Hs.
  - lra.
  - apply Qltb_false in Hs.
    assert (Hpos : (0 < inject_Z (total_paychecks a))%Q) by (apply inject_Z_pos; lia).
    assert (Hgap : (0 < inject_Z (total_paychecks a) - inject_Z (paychecks_elapsed a))%Q).
    { unfold Qlt, Qminus, Qplus, Qopp; simpl; lia. }
    rewrite Hau, Hpl.
    replace (0 <? total_paychecks a) with true by (symmetry; apply Z.ltb_lt; lia).
    set (T := row_target r) in *; set (tq := inject_Z (total_paychecks a)) in *;
      set (eq := inject_Z (paychecks_elapsed a)) in *.
    apply (Qmult_lt_r _ _ tq Hpos).
    setoid_replace ((T - T / tq * eq) * tq)%Q with (T * (tq - eq))%Q
      by (field; intro Hz; rewrite Hz in Hpos; discriminate).
    setoid_replace (0 * tq)%Q with (0 * (tq - eq))%Q by ring.
    apply (Qmult_lt_r _ _ _ Hgap); lra.
Qed.

(** C4: for every row, [remaining = max(target - effective_saved, 0)], so
    [remaining >= 0] and [per_paycheck >= 0]; when [saved_so_far] exceeds
    [target] (e.g. 1500 against 1200), [remaining] and [per_paycheck] are 0. *)
Theorem remaining_nonneg (freq : string) (pay_date : Z) (r : row) :
  let a := alloc_row (days_between_paychecks_of freq) pay_date r in
  remaining a = py_maxQ (row_target r - effective_saved a) 0 /\
  (0 <= remaining a)%Q /\ (0 <= per_paycheck a)%Q /\
  ((row_target r < row_saved_so_far r)%Q ->
     remaining a = 0%Q /\ (per_paycheck a == 0)%Q).
Proof.
  intro a.
  pose proof (overshoot_remaining (days_between_paychecks_of freq) pay_date r) as Hov.
  pose proof (alloc_row_counts (days_between_paychecks_of freq) pay_date r)
    as (Hl & _ & _ & _).
  pose proof (alloc_row_amounts (days_between_paychecks_of freq) pay_date r)
    as (_ & _ & _ & Hrem & Hper & _).
  fold a in Hov, Hl, Hrem, Hper; clearbody a.
  assert (Hr0 : (0 <= remaining a)%Q) by (rewrite Hrem; apply py_maxQ_nonneg).
  replace (0 <? paychecks_left a) with true in Hper
    by (symmetry; apply Z.ltb_lt; lia).
  split; [exact Hrem|]; split; [exact Hr0|]; split.
  - rewrite Hper; apply Qle_shift_div_l; [apply inject_Z_pos; lia | lra].
  - intro H; split; [exact (Hov H) | rewrite Hper, (Hov H); reflexivity].
Qed.

(** C5: for every goal list and paycheck amount, [total_allocations] is the
    sum of the [per_paycheck] column and
    [leftover = max(paycheck - total_allocations, 0) >= 0]. *)
Theorem leftover_nonneg (today : Z) (gl : globals) (pay_date : Z)
    (expenses : list goal) (out : output) :
  engine today gl pay_date expenses = Ok out ->
  (total_allocations out == fold_right Qplus 0 (map per_paycheck (df out)))%Q /\
  leftover out = py_maxQ (paycheck gl - total_allocations out) 0 /\
  (0 <= leftover out)%Q.
Proof.
  intro H; destruct (engine_ok _ _ _ _ _ H)
    as (rendered & rows & _ & _ & _ & Htot & Hlo & _).
  repeat split.
  - rewrite Htot; unfold sum_per_paycheck; rewrite sum_per_paycheck_fold; ring.
  - exact Hlo.
  - rewrite Hlo; apply py_maxQ_nonneg.
Qed.

(** C6: the zero-denominator fallbacks are never taken: the number of days
    between paychecks is positive, both guards [total_paychecks > 0] and
    [paychecks_left > 0] hold, and [planned_per_paycheck] and
    [per_paycheck] are the plain quotients. *)
Theorem no_zero_denominator (freq : string) (pay_date : Z) (r : row) :
  let k := days_between_paychecks_of freq in
  let a := alloc_row k pay_date r in
  0 < k /\ (0 <? total_paychecks a) = true /\ (0 <? paychecks_left a) = true /\
  planned_per_paycheck a = (row_target r / inject_Z (total_paychecks a))%Q /\
  per_paycheck a = (remaining a / inject_Z (paychecks_left a))%Q.
Proof.
  intros k a.
  pose proof (days_between_paychecks_of_pos freq) as Hk.
  pose proof (alloc_row_counts k pay_date r) as (Hl & Ht & _ & _).
  pose proof (alloc_row_amounts k pay_date r) as (Hpl & _ & _ & _ & Hper & _).
  fold a in Hl, Ht, Hpl, Hper; clearbody a.
  assert (Et : (0 <? total_paychecks a) = true) by (apply Z.ltb_lt; lia).
  assert (El : (0 <? paychecks_left a) = true) by (apply Z.ltb_lt; lia).
  rewrite Et in Hpl; rewrite El in Hper.
  repeat split; auto.
Qed.

(** C7 (fails on the code): a stored goal whose
    [target] is JSON [null] is not defaulted by the normalization loop (the
    key is present) and [float(goal["target"])] of line 249 raises
    [TypeError], which ends the run before the coercion of line 299. *)
Theorem null_target_raises (today : Z) (gl : globals) (pay_date : Z)
    (g : goal) (rest : list goal) :
  target g = Some VNone -> engine today gl pay_date (g :: rest) = Err TypeError.
Proof.
  intro Ht; unfold engine, normalize_goal; simpl; rewrite Ht.
  destruct (name g) as [p|]; [destruct p|]; reflexivity.
Qed.

(** C8: with every [deadline] and [created] given explicitly, the run does
    not depend on the current date: two runs with the same goals and pay
    inputs give the same allocation rows, totals, leftover and write-back,
    whatever dates [today] returns in each. *)
Theorem engine_deterministic (today1 today2 : Z) (gl : globals) (pay_date : Z)
    (expenses : list goal) :
  forallb goal_dates_explicit expenses = true ->
  engine today1 gl pay_date expenses = engine today2 gl pay_date expenses.
Proof.
  intro H; unfold engine.
  replace (map (normalize_goal today1) expenses)
    with (map (normalize_goal today2) expenses); [reflexivity|].
  induction expenses as [|g gs IH]; simpl in *; [reflexivity|].
  apply andb_true_iff in H as [Hg Hgs]; unfold goal_dates_explicit in Hg.
  apply andb_true_iff in Hg as [Hd Hc].
  rewrite IH by exact Hgs; f_equal; unfold normalize_goal.
  rewrite (normalize_date_explicit today1 today2 _ Hd),
    (normalize_date_explicit today1 today2 _ Hc); reflexivity.
Qed.

(** C9 (counterexample): a stored goal without a [name] and with its
    [deadline] as an ISO string is written back with the placeholder name
    and a date object, and a stored goal whose [name] is the number [5]
    and whose [target] is the integer [600] is written back with the name
    ["5"] (the text widget's [str()]) and the target [600.0]: the
    write-back does not only change [saved_so_far] relative to the goal
    handed in. *)
Lemma writeback_rewrites_fields :
  match engine (ymd2ord 2024 1 15) (mkGlobals 0 0 0 14) (ymd2ord 2024 1 15)
          [mkGoal None (Some (VFloat 1200)) (Some (VStr "2024-01-29"))
             (Some (VStr "2024-01-01")) (Some (VFloat 0)) [];
           mkGoal (Some (VInt 5)) (Some (VInt 600)) (Some (VStr "2024-06-30"))
             (Some (VStr "2024-01-01")) (Some (VFloat 0)) []] with
  | Ok out =>
      map name (new_expenses out) = [Some (VStr "Unnamed Goal"); Some (VStr "5")] /\
      map deadline (new_expenses out) =
        [Some (VDate (ymd2ord 2024 1 29)); Some (VDate (ymd2ord 2024 6 30))] /\
      map target (new_expenses out) = [Some (VFloat 1200); Some (VFloat 600)]
  | Err _ => False
  end.
Proof. vm_compute; repeat split; reflexivity. Qed.

(** C9 (amended): the write-back keeps every key outside the five the
    script uses, and, when every normalized goal has a date as [created],
    it returns each goal dict as normalized by lines 217-258 and read back
    through the row widgets of lines 242-258, with [saved_so_far] replaced
    by [effective_saved]: an absent name becomes ["Unnamed Goal"], a name
    other than a string or [None] becomes its [str()], [target] and
    [saved_so_far] become floats, [deadline] becomes a date. *)
Theorem writeback_frame (today : Z) (gl : globals) (pay_date : Z)
    (expenses : list goal) (out : output) :
  engine today gl pay_date expenses = Ok out ->
  exists rendered,
    map_res render_goal (map (normalize_goal today) expenses) = Ok rendered /\
    Forall2 (fun g g' => extra g' = extra g) expenses (new_expenses out) /\
    (forallb created_is_date rendered = true ->
     new_expenses out =
       map (fun q => set_saved (fst q) (VFloat (effective_saved (snd q))))
           (combine rendered (df out))).
Proof.
  intro H; destruct (engine_ok _ _ _ _ _ H)
    as (rendered & rows & E1 & E2 & Edf & _ & _ & Ewb).
  exists rendered; split; [exact E1|split].
  - rewrite Ewb, Edf; clear Ewb Edf H.
    apply map_res_Forall2 in E1; rewrite Forall2_map_l in E1.
    apply map_res_Forall2 in E2.
    revert rows E2; induction E1 as [|g rg gs rgs Hg _ IH]; intros rows E2;
      inversion E2 as [|rg' r rgs' rs Hr Hrs]; subst; simpl; constructor.
    + destruct (render_goal_shape _ _ Hg) as (n & t & d & sv & ->); reflexivity.
    + apply IH; assumption.
  - intro Hc; rewrite Ewb, Edf.
    apply writeback_set_saved; [exact E2|].
    intros rg Hin; rewrite forallb_forall in Hc; specialize (Hc rg Hin).
    apply map_res_Forall2 in E1; rewrite Forall2_map_l in E1.
    destruct (Forall2_in_right _ _ _ _ E1 Hin) as (g & _ & Hg).
    destruct (render_goal_shape _ _ Hg) as (n & t & d & sv & Erg).
    rewrite Erg in Hc |- *; simpl in *.
    unfold created_is_date in Hc; simpl in Hc.
    destruct (normalize_date today (created g)) as [| | | | |c]; try discriminate.
    exists n, t, d, sv, c; reflexivity.
Qed.

(** C10: [additional_income] (and [total_money]) never reach the
    allocation: two runs that differ only in it give the same result, and
    [leftover] is computed from the paycheck amount of line 199. *)
Theorem additional_income_unused (today : Z) (paycheck0 income1 income2 : Q)
    (pay_frequency : string) (paycheck1 : Q) (pay_date : Z) (freq : string)
    (expenses : list goal) :
  script today paycheck0 income1 pay_frequency paycheck1 pay_date freq expenses =
  script today paycheck0 income2 pay_frequency paycheck1 pay_date freq expenses /\
  (forall out,
     script today paycheck0 income1 pay_frequency paycheck1 pay_date freq expenses
       = Ok out ->
     leftover out = py_maxQ (paycheck1 - total_allocations out) 0).
Proof.
  split; [reflexivity|].
  intros out H; unfold script in H.
  destruct (engine_ok _ _ _ _ _ H) as (_ & _ & _ & _ & _ & _ & Hlo & _).
  exact Hlo.
Qed.

(** ** Witnesses *)

Lemma effective_saved_rule_witness :
  match engine example_pay_date example_globals example_pay_date [example_goal] with
  | Ok out =>
      Forall2 (fun g a =>
         auto_saved a = (planned_per_paycheck a * inject_Z (paychecks_elapsed a))%Q /\
         ((0 < row_saved_so_far (a_row a))%Q ->
            effective_saved a = row_saved_so_far (a_row a)) /\
         ((row_saved_so_far (a_row a) == 0)%Q -> effective_saved a = auto_saved a) /\
         (saved_so_far g = None -> effective_saved a = auto_saved a))
        [example_goal] (df out)
  | Err _ => False
  end.
Proof.
  destruct (engine example_pay_date example_globals example_pay_date [example_goal])
    as [out|e] eqn:E.
  - exact (effective_saved_rule _ _ _ _ out E).
  - vm_compute in E; discriminate.
Defined.

Lemma leftover_nonneg_witness :
  match engine example_pay_date example_globals example_pay_date [example_goal] with
  | Ok out =>
      (total_allocations out == fold_right Qplus 0 (map per_paycheck (df out)))%Q /\
      leftover out = py_maxQ (paycheck example_globals - total_allocations out) 0 /\
      (0 <= leftover out)%Q
  | Err _ => False
  end.
Proof.
  destruct (engine example_pay_date example_globals example_pay_date [example_goal])
    as [out|e] eqn:E.
  - exact (leftover_nonneg _ _ _ _ out E).
  - vm_compute in E; discriminate.
Defined.

Lemma null_target_raises_witness :
  target example_goal_null_target = Some VNone /\
  engine example_pay_date example_globals example_pay_date
    [example_goal_null_target; example_goal] = Err TypeError.
Proof.
  split; [reflexivity|].
  apply null_target_raises; reflexivity.
Defined.

Lemma engine_deterministic_witness :
  forallb goal_dates_explicit [example_goal] = true /\
  engine (ymd2ord 2024 3 1) example_globals example_pay_date [example_goal] =
  engine (ymd2ord 2025 7 4) example_globals example_pay_date [example_goal].
Proof.
  split; [vm_compute; reflexivity|].
  apply engine_deterministic; vm_compute; reflexivity.
Defined.

Lemma writeback_frame_witness :
  match engine example_pay_date example_globals example_pay_date [example_goal] with
  | Ok out =>
      exists rendered,
        map_res render_goal (map (normalize_goal example_pay_date) [example_goal])
          = Ok rendered /\
        Forall2 (fun g g' => extra g' = extra g) [example_goal] (new_expenses out) /\
        (forallb created_is_date rendered = true ->
         new_expenses out =
           map (fun q => set_saved (fst q) (VFloat (effective_saved (snd q))))
               (combine rendered (df out)))
  | Err _ => False
  end.
Proof.
  destruct (engine example_pay_date example_globals example_pay_date [example_goal])
    as [out|e] eqn:E.
  - exact (writeback_frame _ _ _ _ out E).
  - vm_compute in E; discriminate.
Defined.

(** ** Further properties of the script *)

Lemma map_res_of_Forall2 {A B : Type} (f : A -> res B) (l : list A) (l' : list B) :
  Forall2 (fun x y => f x = Ok y) l l' -> map_res f l = Ok l'.
Proof. induction 1 as [|x y xs ys Hxy _ IH]; simpl; [reflexivity|]; rewrite Hxy, IH; reflexivity. Qed.

Lemma map_res_app {A B : Type} (f : A -> res B) (l1 l2 : list A) (m1 m2 : list B) :
  map_res f l1 = Ok m1 -> map_res f l2 = Ok m2 -> map_res f (l1 ++ l2)%list = Ok (m1 ++ m2)%list.
Proof.
  intros H1 H2; apply map_res_Forall2 in H1; apply map_res_Forall2 in H2.
  apply map_res_of_Forall2, Forall2_app; assumption.
Qed.

(** What the widgets and the DataFrame make of one goal dict. *)
Lemma render_row_facts (g rg : goal) (r : row) :
  render_goal g = Ok rg -> to_row rg = Ok r ->
  (0 <= row_target r)%Q /\ (0 <= row_saved_so_far r)%Q /\
  (row_name r = VNone \/ exists s, row_name r = VStr s) /\
  rg = {| name := Some (row_name r); target := Some (VFloat (row_target r));
          deadline := Some (VDate (row_deadline r)); created := created g;
          saved_so_far := Some (VFloat (row_saved_so_far r)); extra := extra g |}.
Proof.
  intros H Ht; unfold render_goal in H; unbind H; injection H as <-.
  unfold number_input in *.
  destruct (Qle_bool 0 a2) eqn:E1; [|discriminate].
  destruct (Qle_bool 0 a6) eqn:E2; [|discriminate].
  ok_inv; unfold to_row in Ht; unbind Ht; simpl in *; ok_inv.
  apply Qle_bool_iff in E1; apply Qle_bool_iff in E2.
  unfold to_datetime_date in *; ok_inv.
  simpl; repeat split; auto.
  unfold text_input in Ha0; destruct a; ok_inv; eauto.
Qed.

Lemma effective_saved_nonneg (k p : Z) (r : row) :
  (0 <= row_target r)%Q -> (0 <= row_saved_so_far r)%Q ->
  (0 <= effective_saved (alloc_row k p r))%Q.
Proof.
  intros Ht Hs.
  pose proof (alloc_row_counts k p r) as (Hl & Htot & He & _).
  pose proof (alloc_row_amounts k p r) as (Hpl & Hau & Heff & _).
  set (a := alloc_row k p r) in *; clearbody a.
  rewrite Heff; destruct (Qltb 0 (row_saved_so_far r)); [exact Hs|].
  rewrite Hau, Hpl.
  replace (0 <? total_paychecks a) with true by (symmetry; apply Z.ltb_lt; lia).
  apply Qmult_le_0_compat; [|unfold Qle; simpl; lia].
  apply Qle_shift_div_l; [apply inject_Z_pos; lia | lra].
Qed.

(** Re-allocating a row whose [saved_so_far] is its own [effective_saved]
    gives the same amounts. *)
Lemma alloc_row_resaved (k p : Z) (r : row) :
  let a := alloc_row k p r in
  let a' := alloc_row k p (with_saved r (effective_saved a)) in
  effective_saved a' = effective_saved a /\ remaining a' = remaining a /\
  per_paycheck a' = per_paycheck a.
Proof.
  cbv zeta; unfold alloc_row, with_saved; simpl.
  destruct (Qltb 0 (row_saved_so_far r)) eqn:E.
  - rewrite E; repeat split.
  - match goal with |- context [Qltb 0 ?x] => destruct (Qltb 0 x) end;
      repeat split.
Qed.

(** A written-back goal goes through the next run's normalization and
    widgets unchanged, and its row is the old row with [effective_saved] as
    [saved_so_far]. *)
Lemma rerun_goal (today' k p : Z) (g rg : goal) (r : row) :
  render_goal g = Ok rg -> to_row rg = Ok r ->
  let wb := writeback_goal rg (alloc_row k p r) in
  render_goal (normalize_goal today' wb) = Ok wb /\
  to_row wb = Ok (with_saved r (effective_saved (alloc_row k p r))).
Proof.
  intros Hr Ht wb.
  destruct (render_row_facts _ _ _ Hr Ht) as (Htg & Hsv & Hn & Erg).
  pose proof (effective_saved_nonneg k p r Htg Hsv) as He.
  subst wb; rewrite Erg; unfold writeback_goal.
  assert (Ea : a_row (alloc_row k p r) = r) by reflexivity.
  rewrite Ea; set (e := effective_saved (alloc_row k p r)) in *; clearbody e.
  unfold render_goal, normalize_goal, number_input, to_row; simpl.
  apply Qle_bool_iff in Htg; apply Qle_bool_iff in He.
  rewrite Htg, He; simpl; split; [|reflexivity].
  destruct Hn as [Hn|[s Hn]]; rewrite Hn; reflexivity.
Qed.

Lemma rerun_lists (today' k p : Z) (rendered : list goal) (rows : list row) :
  Forall2 (fun rg r => exists g, render_goal g = Ok rg /\ to_row rg = Ok r)
    rendered rows ->
  let wb := writeback rendered (map (alloc_row k p) rows) in
  map_res render_goal (map (normalize_goal today') wb) = Ok wb /\
  map_res to_row wb =
    Ok (map (fun r => with_saved r (effective_saved (alloc_row k p r))) rows).
Proof.
  induction 1 as [|rg r rgs rs (g & Hr & Ht) _ IH];
    cbn [writeback map map_res]; [split; reflexivity|].
  destruct IH as (IH1 & IH2).
  destruct (rerun_goal today' k p g rg r Hr Ht) as (H1 & H2).
  rewrite H1, IH1, H2, IH2; split; reflexivity.
Qed.

(** A run on the goals a successful run wrote back, on any day and with any
    pay inputs. *)
Lemma engine_rerun (today today' : Z) (gl gl' : globals) (pay_date pay_date' : Z)
    (expenses : list goal) (out : output) :
  engine today gl pay_date expenses = Ok out ->
  exists rendered rows,
    let k := days_between_paychecks gl in
    let rows' := map (fun r => with_saved r (effective_saved (alloc_row k pay_date r))) rows in
    let df' := map (alloc_row (days_between_paychecks gl') pay_date') rows' in
    df out = map (alloc_row k pay_date) rows /\
    new_expenses out = writeback rendered (df out) /\
    Forall2 (fun rg r => exists g, render_goal g = Ok rg /\ to_row rg = Ok r)
      rendered rows /\
    engine today' gl' pay_date' (new_expenses out) =
      Ok {| df := df'; total_allocations := sum_per_paycheck df';
            leftover := py_maxQ (paycheck gl' - sum_per_paycheck df') 0;
            new_expenses := writeback (new_expenses out) df' |}.
Proof.
  intro H; destruct (engine_ok _ _ _ _ _ H)
    as (rendered & rows & E1 & E2 & Edf & _ & _ & Ewb).
  assert (HF : Forall2 (fun rg r => exists g, render_goal g = Ok rg /\ to_row rg = Ok r)
                 rendered rows).
  { apply map_res_Forall2 in E1; rewrite Forall2_map_l in E1.
    apply map_res_Forall2 in E2.
    clear -E1 E2; revert rows E2; induction E1 as [|g rg gs rgs Hg _ IH];
      intros rows E2; inversion E2; subst; constructor; eauto. }
  exists rendered, rows; cbv zeta.
  destruct (rerun_lists today' (days_between_paychecks gl) pay_date rendered rows HF)
    as (R1 & R2).
  repeat split; auto.
  rewrite Ewb, Edf; unfold engine; rewrite R1; simpl; rewrite R2; reflexivity.
Qed.

Lemma writeback_resaved (k p : Z) (rendered : list goal) (rows : list row) :
  Forall2 (fun rg r => exists g, render_goal g = Ok rg /\ to_row rg = Ok r)
    rendered rows ->
  let wb := writeback rendered (map (alloc_row k p) rows) in
  writeback wb (map (alloc_row k p)
    (map (fun r => with_saved r (effective_saved (alloc_row k p r))) rows)) = wb.
Proof.
  induction 1 as [|rg r rgs rs _ _ IH]; cbn [writeback map]; [reflexivity|].
  rewrite IH; f_equal.
  unfold writeback_goal; simpl.
  destruct (alloc_row_resaved k p r) as (He & _ & _); simpl in He; rewrite He.
  reflexivity.
Qed.

Lemma effective_saved_with_saved_pos (k p : Z) (r : row) (q : Q) :
  Qltb 0 q = true -> effective_saved (alloc_row k p (with_saved r q)) = q.
Proof. intro H; unfold alloc_row; cbn; rewrite H; reflexivity. Qed.

Lemma normalize_date_stable (today today' : Z) (o : option pyval) :
  normalize_date today' (Some (normalize_date today o)) = normalize_date today o.
Proof.
  unfold normalize_date.
  destruct o as [v|]; [destruct (truthy v) eqn:Ht|]; try reflexivity.
  - destruct v as [|b|z|q|str|d]; try (rewrite Ht; reflexivity).
    destruct (fromisoformat str); reflexivity.
Qed.

Lemma Forall2_map_both {A B C : Type} (P : B -> C -> Prop) (f : A -> B) (g : A -> C)
    (l : list A) :
  (forall x, P (f x) (g x)) -> Forall2 P (map f l) (map g l).
Proof. intro H; induction l; simpl; constructor; auto. Qed.

Lemma sum_per_paycheck_map (l : list alloc) :
  sum_per_paycheck l = fold_left Qplus (map per_paycheck l) 0%Q.
Proof.
  unfold sum_per_paycheck; generalize 0%Q; induction l as [|a l IH]; intro z;
    simpl; [reflexivity|apply IH].
Qed.

(** Theorems. *)

Lemma rerun_fixpoint_gen (today today' : Z) (gl : globals) (pay_date : Z)
    (expenses : list goal) (out : output) :
  engine today gl pay_date expenses = Ok out ->
  exists out',
    engine today' gl pay_date (new_expenses out) = Ok out' /\
    new_expenses out' = new_expenses out /\
    map effective_saved (df out') = map effective_saved (df out) /\
    map per_paycheck (df out') = map per_paycheck (df out) /\
    total_allocations out' = total_allocations out /\
    leftover out' = leftover out.
Proof.
  intro H.
  destruct (engine_ok _ _ _ _ _ H) as (_ & _ & _ & _ & _ & Htot & Hlo & _).
  destruct (engine_rerun today today' gl gl pay_date pay_date expenses out H)
    as (rendered & rows & Edf & Ewb & HF & Er); cbv zeta in Er.
  eexists; split; [exact Er|]; cbn [df new_expenses total_allocations leftover].
  set (k := days_between_paychecks gl) in *.
  assert (Emap : forall (B : Type) (f : alloc -> B),
            (forall r, f (alloc_row k pay_date (with_saved r
                            (effective_saved (alloc_row k pay_date r))))
                       = f (alloc_row k pay_date r)) ->
            map f (map (alloc_row k pay_date)
                     (map (fun r => with_saved r (effective_saved (alloc_row k pay_date r)))
                        rows)) = map f (df out)).
  { intros B f Hf; rewrite Edf, !map_map; apply map_ext; intro r; apply Hf. }
  assert (Eper : map per_paycheck (map (alloc_row k pay_date)
                   (map (fun r => with_saved r (effective_saved (alloc_row k pay_date r)))
                      rows)) = map per_paycheck (df out))
    by (apply Emap; intro r; apply (alloc_row_resaved k pay_date r)).
  assert (Etot : sum_per_paycheck (map (alloc_row k pay_date)
                   (map (fun r => with_saved r (effective_saved (alloc_row k pay_date r)))
                      rows)) = total_allocations out)
    by (rewrite Htot, !sum_per_paycheck_map, Eper; reflexivity).
  repeat split.
  - rewrite Ewb, Edf; apply writeback_resaved; exact HF.
  - apply Emap; intro r; apply (alloc_row_resaved k pay_date r).
  - exact Eper.
  - exact Etot.
  - rewrite Etot, Hlo; reflexivity.
Qed.

(** The goals written back at the end of a run are a fixed point: a rerun
    (on any day) with the same pay date and frequency succeeds, shows the
    same [effective_saved] and [per_paycheck] for every goal, the same
    totals and leftover, and writes back exactly the same goals. *)
Theorem rerun_fixpoint (today today' : Z) (gl : globals) (pay_date : Z)
    (expenses : list goal) (out : output) :
  engine today gl pay_date expenses = Ok out ->
  exists out',
    engine today' gl pay_date (new_expenses out) = Ok out' /\
    new_expenses out' = new_expenses out /\
    map effective_saved (df out') = map effective_saved (df out) /\
    map per_paycheck (df out') = map per_paycheck (df out) /\
    total_allocations out' = total_allocations out /\
    leftover out' = leftover out.
Proof. exact (rerun_fixpoint_gen today today' gl pay_date expenses out). Qed.

(** Once a run has written a goal back, its [effective_saved] becomes the
    stored [saved_so_far]: in any later run, on any day and with any pay
    date or frequency, a positive amount is kept as it is, so the
    auto-inferred savings no longer follow the elapsed paychecks. *)
Theorem auto_saved_frozen (today today' : Z) (gl gl' : globals)
    (pay_date pay_date' : Z) (expenses : list goal) (out : output) :
  engine today gl pay_date expenses = Ok out ->
  exists out',
    engine today' gl' pay_date' (new_expenses out) = Ok out' /\
    Forall2 (fun a a' =>
       row_saved_so_far (a_row a') = effective_saved a /\
       ((0 < effective_saved a)%Q -> effective_saved a' = effective_saved a))
      (df out) (df out').
Proof.
  intro H.
  destruct (engine_rerun today today' gl gl' pay_date pay_date' expenses out H)
    as (rendered & rows & Edf & _ & _ & Er); cbv zeta in Er.
  eexists; split; [exact Er|]; cbn [df new_expenses total_allocations leftover].
  rewrite Edf, map_map; apply Forall2_map_both; intro r.
  cbn [a_row alloc_row row_saved_so_far with_saved]; split; [reflexivity|].
  intro Hp; apply Qltb_true in Hp; apply effective_saved_with_saved_pos; exact Hp.
Qed.

(** Normalization is idempotent: normalizing an already normalized goal
    dict (as the next run does with the stored goals) changes nothing,
    whatever the date. *)
Theorem normalize_goal_idempotent (today today' : Z) (g : goal) :
  normalize_goal today' (normalize_goal today g) = normalize_goal today g.
Proof.
  unfold normalize_goal; cbn [name target deadline created saved_so_far extra].
  rewrite !normalize_date_stable.
  destruct (name g), (target g), (saved_so_far g); reflexivity.
Qed.

Lemma map_res_app_err {A B : Type} (f : A -> res B) (l1 l2 : list A) (e : py_error) :
  map_res f l1 = Err e -> map_res f (l1 ++ l2)%list = Err e.
Proof.
  induction l1 as [|x xs IH]; simpl; [discriminate|].
  destruct (f x); simpl; [|auto].
  destruct (map_res f xs); simpl; [discriminate|].
  intro H; rewrite (IH H); reflexivity.
Qed.

Lemma writeback_app (o1 o2 : list goal) (d1 d2 : list alloc) :
  List.length o1 = List.length d1 ->
  writeback (o1 ++ o2)%list (d1 ++ d2)%list = (writeback o1 d1 ++ writeback o2 d2)%list.
Proof.
  revert d1; induction o1 as [|g o1 IH]; intros [|a d1] H; simpl in *;
    try discriminate; [reflexivity|].
  rewrite IH by lia; reflexivity.
Qed.

Lemma sum_per_paycheck_snoc (l : list alloc) (a : alloc) :
  sum_per_paycheck (l ++ [a])%list = (sum_per_paycheck l + per_paycheck a)%Q.
Proof. unfold sum_per_paycheck; rewrite fold_left_app; reflexivity. Qed.

Lemma py_maxQ_compat (x y : Q) : (x == y)%Q -> (py_maxQ x 0 == py_maxQ y 0)%Q.
Proof.
  intro H; unfold py_maxQ, Qltb.
  destruct (Qle_bool 0 x) eqn:Ex, (Qle_bool 0 y) eqn:Ey; simpl; try reflexivity.
  - exact H.
  - apply Qle_bool_iff in Ex; apply not_true_iff_false in Ey.
    exfalso; apply Ey, Qle_bool_iff; lra.
  - apply Qle_bool_iff in Ey; apply not_true_iff_false in Ex.
    exfalso; apply Ex, Qle_bool_iff; lra.
Qed.

Lemma py_maxQ_nonpos (x : Q) : (x <= 0)%Q -> (py_maxQ x 0 == 0)%Q.
Proof.
  intro H; unfold py_maxQ, Qltb.
  destruct (Qle_bool 0 x) eqn:Ex; simpl; [|reflexivity].
  apply Qle_bool_iff in Ex; lra.
Qed.

(** A row whose target is covered by its savings gets nothing. *)
Lemma alloc_row_covered (k p : Z) (r : row) :
  (row_target r <= effective_saved (alloc_row k p r))%Q ->
  (remaining (alloc_row k p r) == 0)%Q /\ (per_paycheck (alloc_row k p r) == 0)%Q.
Proof.
  intro H.
  pose proof (alloc_row_amounts k p r) as (_ & _ & _ & Hrem & Hper & _).
  cbv zeta in *.
  assert (R : (remaining (alloc_row k p r) == 0)%Q)
    by (rewrite Hrem; apply py_maxQ_nonpos; lra).
  split; [exact R|]; rewrite Hper.
  destruct (0 <? paychecks_left (alloc_row k p r)); [|exact R].
  unfold Qdiv; rewrite R; apply Qmult_0_l.
Qed.

Lemma new_goal_row (today today0 : Z) :
  render_goal (normalize_goal today (new_goal today0)) = Ok (new_goal today0) /\
  to_row (new_goal today0) = Ok {| row_name := VStr "New Goal"; row_target := 0;
     row_deadline := today0; row_created := today0; row_saved_so_far := 0 |}.
Proof. split; reflexivity. Qed.

Theorem add_new_goal (today today0 : Z) (gl : globals) (pay_date : Z)
    (expenses : list goal) :
  match engine today gl pay_date expenses with
  | Err e => engine today gl pay_date (expenses ++ [new_goal today0])%list = Err e
  | Ok out =>
      exists out' a,
        engine today gl pay_date (expenses ++ [new_goal today0])%list = Ok out' /\
        df out' = (df out ++ [a])%list /\
        a_row a = {| row_name := VStr "New Goal"; row_target := 0;
                     row_deadline := today0; row_created := today0;
                     row_saved_so_far := 0 |} /\
        (effective_saved a == 0)%Q /\ (per_paycheck a == 0)%Q /\
        (total_allocations out' == total_allocations out)%Q /\
        (leftover out' == leftover out)%Q /\
        new_expenses out' =
          (new_expenses out ++ [set_saved (new_goal today0) (VFloat (effective_saved a))])%list
  end.
Proof.
  destruct (new_goal_row today today0) as (N1 & N2).
  destruct (engine today gl pay_date expenses) as [out|e] eqn:E.
  - destruct (engine_ok _ _ _ _ _ E) as (rendered & rows & E1 & E2 & Edf & Etot & Elo & Ewb).
    set (r0 := {| row_name := VStr "New Goal"; row_target := 0;
                  row_deadline := today0; row_created := today0;
                  row_saved_so_far := 0 |}) in *.
    set (a := alloc_row (days_between_paychecks gl) pay_date r0).
    assert (Ea : (effective_saved a == 0)%Q).
    { assert (Hr : (0 <= row_target r0)%Q) by (simpl; lra).
      assert (Hs : (0 <= row_saved_so_far r0)%Q) by (simpl; lra).
      pose proof (effective_saved_nonneg (days_between_paychecks gl) pay_date r0 Hr Hs).
      pose proof (alloc_row_amounts (days_between_paychecks gl) pay_date r0)
        as (Hpl & Hau & Heff & _); cbv zeta in *.
      fold a in Hpl, Hau, Heff, H |- *.
      assert (Q0 : Qltb 0 (row_saved_so_far r0) = false) by reflexivity.
      rewrite Heff, Q0, Hau, Hpl.
      destruct (0 <? total_paychecks a);
        [unfold Qdiv; change (row_target r0) with 0%Q|]; rewrite !Qmult_0_l; reflexivity. }
    assert (Pa : (per_paycheck a == 0)%Q).
    { apply alloc_row_covered; fold a; change (row_target r0) with 0%Q; rewrite Ea; apply Qle_refl. }
    assert (Hlen : List.length rendered = List.length (df out)).
    { rewrite Edf, length_map; apply map_res_Forall2 in E2; exact (Forall2_length E2). }
    eexists; exists a; split.
    { unfold engine; rewrite map_app.
      rewrite (map_res_app render_goal _ _ rendered [new_goal today0] E1)
        by reflexivity.
      simpl bind.
      rewrite (map_res_app to_row _ _ rows [r0] E2) by reflexivity.
      reflexivity. }
    cbn [df total_allocations leftover new_expenses allocate].
    rewrite map_app; cbn [map]; fold a; rewrite <- Edf, sum_per_paycheck_snoc, <- Etot.
    refine (conj eq_refl (conj eq_refl (conj Ea (conj Pa (conj _ (conj _ _)))))); [lra| |].
    + rewrite Elo; apply py_maxQ_compat; lra.
    + rewrite writeback_app by exact Hlen; rewrite <- Ewb; reflexivity.
  - unfold engine in *; rewrite map_app.
    destruct (map_res render_goal (map (normalize_goal today) expenses))
      as [rendered|e'] eqn:E1; simpl in E.
    + rewrite (map_res_app render_goal _ _ rendered [new_goal today0] E1)
        by reflexivity; simpl.
      destruct (map_res to_row rendered) as [rows|e''] eqn:E2; simpl in E; [discriminate|].
      injection E as ->; rewrite (map_res_app_err _ _ _ _ E2); reflexivity.
    + injection E as ->; rewrite (map_res_app_err _ _ _ _ E1); reflexivity.
Qed.

Ltac qle_cases :=
  repeat match goal with
  | _ : context [Qle_bool ?a ?b] |- _ =>
      let E := fresh "E" in
      destruct (Qle_bool a b) eqn:E;
      [apply Qle_bool_iff in E
      |apply not_true_iff_false in E; rewrite Qle_bool_iff in E; apply Qnot_le_lt in E];
      cbn [negb] in *
  | |- context [Qle_bool ?a ?b] =>
      let E := fresh "E" in
      destruct (Qle_bool a b) eqn:E;
      [apply Qle_bool_iff in E
      |apply not_true_iff_false in E; rewrite Qle_bool_iff in E; apply Qnot_le_lt in E];
      cbn [negb] in *
  end.

Lemma clip_bounds (x : Q) :
  (0 <= py_minQ (py_maxQ x 0) 1 <= 1)%Q /\
  ((1 <= py_minQ (py_maxQ x 0) 1)%Q <-> (1 <= x)%Q).
Proof. unfold py_minQ, py_maxQ, Qltb; qle_cases; split; try split; intros; lra. Qed.

Lemma py_int_percent (q : Q) :
  (0 <= q <= 100)%Q -> 0 <= py_int q <= 100 /\ (py_int q = 100 <-> (100 <= q)%Q).
Proof.
  intro H; unfold py_int.
  replace (Qle_bool 0 q) with true by (symmetry; apply Qle_bool_iff; lra).
  pose proof (Qfloor_le q) as H1; pose proof (Qlt_floor q) as H2.
  rewrite inject_Z_plus in H2.
  set (f := Qfloor q) in *.
  assert (Hf0 : -1 < f)
    by (rewrite Zlt_Qlt; change (inject_Z (-1)) with (-1)%Q; change (inject_Z 1) with 1%Q in H2; lra).
  assert (Hf1 : f <= 100) by (rewrite Zle_Qle; change (inject_Z 100) with 100%Q; lra).
  split; [lia|split].
  - intro E; rewrite E in H1; change (inject_Z 100) with 100%Q in H1; exact H1.
  - intro Hq; assert (99 < f) by (rewrite Zlt_Qlt; change (inject_Z 99) with 99%Q;
                                   change (inject_Z 1) with 1%Q in H2; lra).
    lia.
Qed.

Lemma py_maxQ_zero_iff (x : Q) : (py_maxQ x 0 == 0)%Q <-> (x <= 0)%Q.
Proof. unfold py_maxQ, Qltb; qle_cases; split; intro; lra. Qed.

Lemma ge1_div (e t : Q) : (0 < t)%Q -> (1 <= e / t)%Q <-> (t <= e)%Q.
Proof.
  intro Ht; assert (Hm : (t * (e / t) == e)%Q) by (apply Qmult_div_r; lra).
  split; intro H.
  - nra.
  - apply Qle_shift_div_l; lra.
Qed.

(** The progress bar and percentage of a goal: [prog] stays within
    [0..1] and the percentage within [0..100]; for a positive target the
    percentage reads 100 exactly when nothing remains to be saved, and a
    goal whose target is not positive always shows an empty bar and 0%,
    even though nothing remains for it. *)
Theorem progress_display (k p : Z) (r : row) :
  let a := alloc_row k p r in
  (0 <= progress a <= 1)%Q /\ 0 <= progress_percent a <= 100 /\
  ((0 < row_target r)%Q -> (progress_percent a = 100 <-> (remaining a == 0)%Q)) /\
  ((row_target r <= 0)%Q -> progress a = 0%Q /\ progress_percent a = 0).
Proof.
  cbv zeta; set (a := alloc_row k p r).
  assert (Er : a_row a = r) by reflexivity.
  pose proof (alloc_row_amounts k p r) as (_ & _ & _ & Hrem & _); fold a in Hrem.
  unfold progress_percent, progress; rewrite Er.
  destruct (Qltb 0 (row_target r)) eqn:Et.
  - apply Qltb_true in Et.
    set (x := (effective_saved a / row_target r)%Q).
    destruct (clip_bounds x) as (Hb & Hge).
    set (c := py_minQ (py_maxQ x 0) 1) in *.
    destruct (py_int_percent (c * 100)) as (Hp & Hiff); [lra|].
    split; [exact Hb|]; split; [exact Hp|]; split.
    + intros _; rewrite Hiff, Hrem, py_maxQ_zero_iff.
      split; intro H.
      * assert (1 <= x)%Q by (apply Hge; lra).
        apply (ge1_div (effective_saved a) (row_target r) Et) in H0; lra.
      * assert (1 <= c)%Q by (apply Hge, ge1_div; [exact Et | lra]). lra.
    + intro; lra.
  - apply Qltb_false in Et.
    split; [split; discriminate|]; split; [split; discriminate|].
    split; [intro H; apply Qlt_not_le in H; contradiction|].
    intros _; split; reflexivity.
Qed.

Ltac key_props :=
  repeat match goal with
  | b : bool |- _ => destruct b
  | H : String.eqb _ _ = true |- _ => apply String.eqb_eq in H
  | H : Z.eqb _ _ = true |- _ => apply Z.eqb_eq in H
  | H : Qeq_bool _ _ = true |- _ => apply Qeq_bool_iff in H
  | H : String.eqb _ _ = false |- _ => apply String.eqb_neq in H
  | H : Z.eqb _ _ = false |- _ => apply Z.eqb_neq in H
  | H : Qeq_bool _ _ = false |- _ => apply Qeq_bool_neq in H
  | |- String.eqb _ _ = true => apply String.eqb_eq
  | |- Z.eqb _ _ = true => apply Z.eqb_eq
  | |- Qeq_bool _ _ = true => apply Qeq_bool_iff
  end.

Lemma py_key_eqb_sym (a b : pyval) : py_key_eqb a b = py_key_eqb b a.
Proof.
  destruct a, b; simpl; try reflexivity.
  all: try apply String.eqb_sym; try apply Z.eqb_sym.
  all: apply eq_true_iff_eq; split; intro; key_props; lra.
Qed.

Lemma py_key_eqb_trans (a b c : pyval) :
  py_key_eqb a b = true -> py_key_eqb b c = true -> py_key_eqb a c = true.
Proof.
  destruct a, b, c; simpl; intros H1 H2; try discriminate; key_props;
    subst; try reflexivity; try lra.
Qed.

Lemma dict_get_set (d : pydict) (k k' : pyval) (v : Q) :
  dict_get (dict_set d k v) k' = if py_key_eqb k k' then Some v else dict_get d k'.
Proof.
  induction d as [|[k0 v0] d IH]; simpl; [destruct (py_key_eqb k k'); reflexivity|].
  destruct (py_key_eqb k0 k) eqn:E0; simpl.
  - destruct (py_key_eqb k k') eqn:E1.
    + rewrite (py_key_eqb_trans _ _ _ E0 E1); reflexivity.
    + destruct (py_key_eqb k0 k') eqn:E2; [|reflexivity].
      rewrite py_key_eqb_sym in E0.
      rewrite (py_key_eqb_trans _ _ _ E0 E2) in E1; discriminate.
  - rewrite IH.
    destruct (py_key_eqb k0 k') eqn:E2, (py_key_eqb k k') eqn:E1; try reflexivity.
    rewrite py_key_eqb_sym in E1.
    rewrite (py_key_eqb_trans _ _ _ E2 E1) in E0; discriminate.
Qed.

Lemma series_to_dict_get_gen (df : list alloc) (d : pydict) (k : pyval) :
  dict_get (fold_left (fun d a => dict_set d (row_name (a_row a)) (per_paycheck a)) df d) k =
  fold_left (fun acc a => if py_key_eqb (row_name (a_row a)) k
                          then Some (per_paycheck a) else acc) df (dict_get d k).
Proof.
  revert d; induction df as [|a df IH]; intro d; simpl; [reflexivity|].
  rewrite IH, dict_get_set; reflexivity.
Qed.

(** Which amount the pie shows under a name: the leftover for a name equal
    to ["Leftover"] when the leftover is positive (hiding a goal of that
    name), and otherwise the [per_paycheck] of the last goal with that
    name, so that goals sharing a name are shown as one slice holding only
    the last goal's allocation. *)
Theorem pie_lookup (df : list alloc) (leftover : Q) (k : pyval) :
  dict_get (pie_allocations df leftover) k =
    if Qltb 0 leftover && py_key_eqb (VStr "Leftover") k then Some leftover
    else last_per_paycheck df k.
Proof.
  unfold pie_allocations, series_to_dict, last_per_paycheck.
  destruct (Qltb 0 leftover); simpl.
  - rewrite dict_get_set, series_to_dict_get_gen; reflexivity.
  - rewrite series_to_dict_get_gen; reflexivity.
Qed.

Lemma per_paycheck_nonneg (k p : Z) (r : row) : (0 <= per_paycheck (alloc_row k p r))%Q.
Proof.
  pose proof (alloc_row_counts k p r) as (Hl & _ & _ & _).
  pose proof (alloc_row_amounts k p r) as (_ & _ & _ & Hrem & Hper & _).
  set (a := alloc_row k p r) in *; clearbody a.
  assert (Hr0 : (0 <= remaining a)%Q) by (rewrite Hrem; apply py_maxQ_nonneg).
  rewrite Hper; replace (0 <? paychecks_left a) with true by (symmetry; apply Z.ltb_lt; lia).
  apply Qle_shift_div_l; [apply inject_Z_pos; lia | lra].
Qed.

Definition pie_item (a : alloc) : pyval * Q := (row_name (a_row a), per_paycheck a).

Lemma dict_set_fresh (d : pydict) (k : pyval) (v : Q) :
  Forall (fun kv => py_key_eqb (fst kv) k = false) d -> dict_set d k v = (d ++ [(k, v)])%list.
Proof.
  induction 1 as [|[k0 v0] d H _ IH]; simpl in *; [reflexivity|].
  rewrite H, IH; reflexivity.
Qed.

Lemma series_to_dict_distinct_gen (l : list alloc) (d : pydict) :
  ForallOrdPairs (fun a b => py_key_eqb (row_name (a_row a)) (row_name (a_row b)) = false) l ->
  Forall (fun a => Forall (fun kv => py_key_eqb (fst kv) (row_name (a_row a)) = false) d) l ->
  fold_left (fun d a => dict_set d (row_name (a_row a)) (per_paycheck a)) l d =
    (d ++ map pie_item l)%list.
Proof.
  intro H; revert d; induction H as [|a l Ha _ IH]; intros d Hd; simpl;
    [rewrite app_nil_r; reflexivity|].
  inversion Hd as [|? ? Hda Hdl]; subst.
  rewrite dict_set_fresh by exact Hda.
  rewrite IH; [rewrite <- app_assoc; reflexivity|].
  apply Forall_forall; intros b Hb.
  apply Forall_app; split.
  - exact (proj1 (Forall_forall _ _) Hdl b Hb).
  - constructor; [|constructor]; exact (proj1 (Forall_forall _ _) Ha b Hb).
Qed.

Lemma sum_values_app (d1 d2 : pydict) :
  (sum_values (d1 ++ d2)%list == sum_values d1 + sum_values d2)%Q.
Proof.
  induction d1 as [|kv d1 IH]; simpl; [ring|]; rewrite IH; ring.
Qed.

Lemma sum_values_nonzero (d : pydict) :
  Forall (fun kv => 0 <= snd kv)%Q d ->
  (sum_values (allocations_nonzero d) == sum_values d)%Q.
Proof.
  induction 1 as [|[k v] d Hv _ IH]; simpl in *; [reflexivity|].
  destruct (Qltb 0 v) eqn:E; simpl; rewrite IH; [reflexivity|].
  apply Qltb_false in E; lra.
Qed.

Lemma sum_values_items (l : list alloc) :
  sum_values (map pie_item l) = fold_right Qplus 0%Q (map per_paycheck l).
Proof. induction l as [|a l IH]; simpl; [reflexivity|]; rewrite IH; reflexivity. Qed.

(** When the goals have pairwise different names, none of them equal to
    ["Leftover"], the pie has one slice per goal with a positive allocation,
    in table order, then a ["Leftover"] slice when the leftover is positive,
    and its slices add up to the larger of the paycheck and the total
    allocations. *)
Theorem pie_total (today : Z) (gl : globals) (pay_date : Z) (expenses : list goal)
    (out : output) :
  engine today gl pay_date expenses = Ok out ->
  ForallOrdPairs (fun a b => py_key_eqb (row_name (a_row a)) (row_name (a_row b)) = false)
    (df out) ->
  Forall (fun a => py_key_eqb (row_name (a_row a)) (VStr "Leftover") = false) (df out) ->
  allocations_nonzero (pie_allocations (df out) (leftover out)) =
    (allocations_nonzero (map pie_item (df out)) ++
     (if Qltb 0 (leftover out) then [(VStr "Leftover", leftover out)] else []))%list /\
  (sum_values (allocations_nonzero (pie_allocations (df out) (leftover out)))
     == py_maxQ (total_allocations out) (paycheck gl))%Q.
Proof.
  intros H Hd Hl.
  destruct (engine_ok _ _ _ _ _ H) as (rendered & rows & _ & _ & Edf & Etot & Elo & _).
  assert (Es : series_to_dict (df out) = map pie_item (df out)).
  { unfold series_to_dict; rewrite (series_to_dict_distinct_gen _ [] Hd); [reflexivity|].
    apply Forall_forall; intros; constructor. }
  assert (Hnn : Forall (fun kv => 0 <= snd kv)%Q (map pie_item (df out))).
  { rewrite Edf, map_map; apply Forall_forall; intros kv Hkv.
    apply in_map_iff in Hkv as (r & <- & _); apply per_paycheck_nonneg. }
  assert (Hsum : (sum_values (map pie_item (df out)) == total_allocations out)%Q).
  { rewrite sum_values_items, Etot; unfold sum_per_paycheck.
    rewrite sum_per_paycheck_fold; ring. }
  assert (Eslices : allocations_nonzero (pie_allocations (df out) (leftover out)) =
    (allocations_nonzero (map pie_item (df out)) ++
     (if Qltb 0 (leftover out) then [(VStr "Leftover", leftover out)] else []))%list).
  { unfold pie_allocations; rewrite Es.
    destruct (Qltb 0 (leftover out)) eqn:E.
    - rewrite dict_set_fresh.
      + unfold allocations_nonzero; rewrite filter_app; simpl; rewrite E; reflexivity.
      + apply Forall_forall; intros kv Hkv; apply in_map_iff in Hkv as (a & <- & Ha).
        exact (proj1 (Forall_forall _ _) Hl a Ha).
    - rewrite app_nil_r; reflexivity. }
  split; [exact Eslices|].
  rewrite Eslices, sum_values_app, sum_values_nonzero by exact Hnn.
  rewrite Hsum; rewrite Elo in *.
  set (t := total_allocations out) in *; set (p := paycheck gl).
  unfold py_maxQ, Qltb in *; qle_cases; simpl; try lra.
  all: destruct (Qle_bool 0 (p - t)) eqn:E; simpl in *; qle_cases; try lra.
Qed.

Lemma all_from_spec (f : Z -> bool) (lo : Z) (k : nat) :
  all_from f lo k = true -> forall n, lo <= n < lo + Z.of_nat k -> f n = true.
Proof.
  revert lo; induction k as [|k IH]; intros lo H n Hn; simpl in *; [lia|].
  destruct (f lo) eqn:E; [|discriminate].
  destruct (Z.eq_dec n lo) as [->|Hne]; [exact E|].
  apply (IH (lo + 1) H); lia.
Qed.

Lemma md_check : all_from (fun r => md_ok true r && md_ok false r) 0 365 = true.
Proof. vm_compute; reflexivity. Qed.

Lemma pad4_check : all_from (pad_ok 4) 1 9999 = true.
Proof. vm_compute; reflexivity. Qed.

Lemma pad2_check : all_from (pad_ok 2) 1 31 = true.
Proof. vm_compute; reflexivity. Qed.

Lemma days_leap_rep (y m : Z) :
  days_in_month y m = days_in_month (if is_leap y then 4 else 1) m /\
  days_before_month y m = days_before_month (if is_leap y then 4 else 1) m.
Proof.
  unfold days_in_month, days_before_month.
  destruct (is_leap y); split; reflexivity.
Qed.

Ltac zeqb_cases :=
  repeat match goal with |- context [?x =? ?y] => destruct (Z.eqb_spec x y) end.

Ltac valid_split :=
  unfold valid_ymd; repeat rewrite andb_true_iff; repeat rewrite Z.leb_le.

Lemma ord2ymd_spec (n : Z) :
  1 <= n <= max_ordinal ->
  let '(y, m, d) := ord2ymd n in valid_ymd y m d = true /\ ymd2ord y m d = n.
Proof.
  unfold max_ordinal; intro Hn; unfold ord2ymd.
  set (N := n - 1).
  pose proof (Z.div_mod N 146097 ltac:(lia)); pose proof (Z.mod_pos_bound N 146097 ltac:(lia)).
  set (n400 := N / 146097) in *; set (a := N mod 146097) in *.
  pose proof (Z.div_mod a 36524 ltac:(lia)); pose proof (Z.mod_pos_bound a 36524 ltac:(lia)).
  set (n100 := a / 36524) in *; set (b := a mod 36524) in *.
  pose proof (Z.div_mod b 1461 ltac:(lia)); pose proof (Z.mod_pos_bound b 1461 ltac:(lia)).
  set (n4 := b / 1461) in *; set (c := b mod 1461) in *.
  pose proof (Z.div_mod c 365 ltac:(lia)); pose proof (Z.mod_pos_bound c 365 ltac:(lia)).
  set (n1 := c / 365) in *; set (r := c mod 365) in *.
  assert (0 <= n400) by (apply Z.div_pos; lia).
  assert (0 <= n100) by (apply Z.div_pos; lia).
  assert (0 <= n4) by (apply Z.div_pos; lia).
  assert (0 <= n1) by (apply Z.div_pos; lia).
  clearbody n400 a n100 b n4 c n1 r; subst N.
  destruct ((n1 =? 4) || (n100 =? 4)) eqn:Hs.
  - assert (Hc : (n1 = 4 /\ r = 0 /\ n4 <= 23 /\ n100 <= 3) \/
                 (n100 = 4 /\ n4 = 0 /\ n1 = 0 /\ r = 0)).
    { apply orb_true_iff in Hs as [Hs|Hs]; apply Z.eqb_eq in Hs; lia. }
    set (y := n400 * 400 + 1 + n100 * 100 + n4 * 4 + n1 - 1).
    assert (Hl : is_leap y = true).
    { unfold is_leap, y.
      destruct Hc as [(-> & -> & ? & ?)|(-> & -> & -> & ->)]; zeqb_cases;
      simpl; try reflexivity; exfalso; Z.div_mod_to_equations; lia. }
    split.
    + valid_split; simpl; lia.
    + unfold ymd2ord, days_before_month, days_before_year; rewrite Hl; simpl.
      destruct Hc as [(-> & -> & ? & ?)|(-> & -> & -> & ->)]; subst y;
        Z.div_mod_to_equations; lia.
  - apply orb_false_iff in Hs as (Hs1 & Hs2); apply Z.eqb_neq in Hs1, Hs2.
    assert (n1 <= 3) by lia. assert (n100 <= 3) by lia. assert (n4 <= 24) by lia.
    set (L := (n1 =? 3) && (negb (n4 =? 24) || (n100 =? 3))).
    set (y := n400 * 400 + 1 + n100 * 100 + n4 * 4 + n1).
    assert (Hl : is_leap y = L).
    { unfold is_leap, L, y; zeqb_cases; simpl; try reflexivity; exfalso; Z.div_mod_to_equations; lia. }
    assert (Hmd : md_ok L r = true).
    { pose proof (all_from_spec _ _ _ md_check r ltac:(simpl; lia)) as Hr.
      apply andb_true_iff in Hr as (Ht & Hf); destruct L; assumption. }
    unfold md_ok in Hmd.
    destruct (ord2md r L) as [m d] eqn:Emd.
    repeat rewrite andb_true_iff in Hmd; repeat rewrite Z.leb_le in Hmd.
    destruct Hmd as ((((Hm1 & Hm2) & Hd1) & Hd2) & Hdb); apply Z.eqb_eq in Hdb.
    destruct (days_leap_rep y m) as (Edim & Edbm); rewrite Hl in Edim, Edbm.
    split.
    + valid_split; rewrite Edim; subst y; lia.
    + unfold ymd2ord; rewrite Edbm; unfold days_before_year; subst y;
      Z.div_mod_to_equations; lia.
Qed.

Lemma string_len4 (s : string) :
  String.length s = 4%nat -> exists a b c d, s = String a (String b (String c (String d EmptyString))).
Proof. destruct s as [|a [|b [|c [|d [|e s]]]]]; simpl; intro H; try discriminate; eauto. Qed.

Lemma string_len2 (s : string) :
  String.length s = 2%nat -> exists a b, s = String a (String b EmptyString).
Proof. destruct s as [|a [|b [|c s]]]; simpl; intro H; try discriminate; eauto. Qed.

Lemma fromisoformat_parts (Y M D : string) :
  String.length Y = 4%nat -> String.length M = 2%nat -> String.length D = 2%nat ->
  fromisoformat (Y ++ "-" ++ M ++ "-" ++ D) =
    match digits_val 0 Y, digits_val 0 M, digits_val 0 D with
    | Some y, Some m, Some d => if valid_ymd y m d then Some (ymd2ord y m d) else None
    | _, _, _ => None
    end.
Proof.
  intros HY HM HD.
  destruct (string_len4 Y HY) as (y1 & y2 & y3 & y4 & ->).
  destruct (string_len2 M HM) as (m1 & m2 & ->).
  destruct (string_len2 D HD) as (d1 & d2 & ->).
  reflexivity.
Qed.

Lemma pad_ok_spec (w : nat) (n : Z) :
  pad_ok w n = true -> String.length (pad_int w n) = w /\ digits_val 0 (pad_int w n) = Some n.
Proof.
  unfold pad_ok; intro H; apply andb_true_iff in H as (H1 & H2).
  apply Nat.eqb_eq in H1; split; [exact H1|].
  destruct (digits_val 0 (pad_int w n)) as [k|]; [|discriminate].
  apply Z.eqb_eq in H2; subst; reflexivity.
Qed.

Lemma days_in_month_le (y m : Z) : 1 <= m <= 12 -> days_in_month y m <= 31.
Proof.
  intro H; unfold days_in_month.
  assert (Hm : m = 1 \/ m = 2 \/ m = 3 \/ m = 4 \/ m = 5 \/ m = 6 \/ m = 7 \/ m = 8 \/
               m = 9 \/ m = 10 \/ m = 11 \/ m = 12) by lia.
  destruct (is_leap y); repeat destruct Hm as [-> | Hm]; try lia; subst; lia.
Qed.

Lemma isoformat_fromisoformat (d : Z) :
  1 <= d <= max_ordinal -> fromisoformat (isoformat d) = Some d.
Proof.
  intro H; pose proof (ord2ymd_spec d H) as Hs; unfold isoformat.
  destruct (ord2ymd d) as [[y m] dd]; destruct Hs as (Hv & Ho).
  pose proof Hv as Hv'; unfold valid_ymd in Hv'.
  repeat rewrite andb_true_iff in Hv'; repeat rewrite Z.leb_le in Hv'.
  destruct Hv' as (((((Hy1 & Hy2) & Hm1) & Hm2) & Hd1) & Hd2).
  pose proof (days_in_month_le y m (conj Hm1 Hm2)).
  destruct (pad_ok_spec 4 y (all_from_spec _ _ _ pad4_check y ltac:(simpl; lia))) as (Ly & Dy).
  destruct (pad_ok_spec 2 m (all_from_spec _ _ _ pad2_check m ltac:(simpl; lia))) as (Lm & Dm).
  destruct (pad_ok_spec 2 dd (all_from_spec _ _ _ pad2_check dd ltac:(simpl; lia))) as (Ld & Dd).
  rewrite fromisoformat_parts by assumption.
  rewrite Dy, Dm, Dd, Hv, Ho; reflexivity.
Qed.

(** [date.isoformat] and [date.fromisoformat] are inverse on every date:
    a date written to the users file as a string is read back as the same
    date. *)
Theorem isoformat_roundtrip (d : Z) :
  1 <= d <= max_ordinal -> fromisoformat (isoformat d) = Some d.
Proof. exact (isoformat_fromisoformat d). Qed.

Lemma date_roundtrip (today : Z) (o : option pyval) :
  date_storable o = true ->
  load_date today (save_date o) = o /\ json_ok_opt (save_date o) = true.
Proof.
  destruct o as [[| | | | |d]|]; simpl; try discriminate; try (split; reflexivity).
  intro H; apply andb_true_iff in H as (H1 & H2); apply Z.leb_le in H1, H2.
  rewrite isoformat_fromisoformat by lia; split; reflexivity.
Qed.

Lemma goal_roundtrip (today : Z) (g : goal) :
  goal_storable g = true ->
  load_goal today (save_goal g) = g /\ goal_json_ok (save_goal g) = true.
Proof.
  unfold goal_storable; intro H; repeat rewrite andb_true_iff in H.
  destruct H as (((((((Hd & Hc) & Ht) & Hs) & Jn) & Jt) & Js) & Je).
  destruct (date_roundtrip today _ Hd) as (Ed & Jd).
  destruct (date_roundtrip today _ Hc) as (Ec & Jc).
  split.
  - unfold load_goal, save_goal; cbn [name target deadline created saved_so_far extra].
    rewrite Ed, Ec.
    destruct g as [n t d c sv ex]; simpl in *.
    destruct t; [|discriminate]; destruct sv; [|discriminate]; reflexivity.
  - unfold goal_json_ok, save_goal; cbn [name target deadline created saved_so_far extra].
    rewrite Jn, Jt, Jd, Jc, Js, Je; reflexivity.
Qed.

Lemma goals_roundtrip (today : Z) (es : list goal) :
  forallb goal_storable es = true ->
  map (load_goal today) (map save_goal es) = es /\
  forallb goal_json_ok (map save_goal es) = true.
Proof.
  induction es as [|g es IH]; simpl; [split; reflexivity|].
  intro H; apply andb_true_iff in H as (Hg & Hes).
  destruct (goal_roundtrip today g Hg) as (E1 & J1); destruct (IH Hes) as (E2 & J2).
  rewrite E1, E2, J1, J2; split; reflexivity.
Qed.

Lemma save_load_users (today : Z) (us : users) :
  forallb (fun ku => user_storable (snd ku)) us = true ->
  snd (save_users us) = Ok tt /\
  load_users today (fst (save_users us)) =
    map (fun ku => (fst ku, ensure_expenses (snd ku))) us.
Proof.
  intro H.
  assert (E : forallb (fun ku => user_json_ok (snd ku))
                (map (fun ku => (fst ku, save_user (snd ku))) us) = true /\
              map (fun ku => (fst ku, load_user today (snd ku)))
                (map (fun ku => (fst ku, save_user (snd ku))) us) =
              map (fun ku => (fst ku, ensure_expenses (snd ku))) us).
  { induction us as [|[k u] us IH]; simpl in *; [split; reflexivity|].
    apply andb_true_iff in H as (Hu & Hus); destruct (IH Hus) as (IH1 & IH2).
    unfold user_storable in Hu; repeat rewrite andb_true_iff in Hu.
    destruct Hu as (((Jn & Jp) & Hg) & Jx).
    destruct (goals_roundtrip today _ Hg) as (Eg & Jg).
    rewrite IH1, IH2; split.
    - unfold user_json_ok, save_user; simpl; rewrite Jn, Jp, Jg, Jx; reflexivity.
    - unfold load_user, save_user, ensure_expenses; simpl; rewrite Eg; reflexivity. }
  destruct E as (E1 & E2).
  unfold save_users; rewrite E1; split; [reflexivity|exact E2].
Qed.

(** Saving the users and loading them back (on any day) gives the same
    users, each with an ["expenses"] key, as long as every date key holds
    a date (or no string), every goal has its [target] and [saved_so_far],
    and no other value is a date. *)
Theorem save_load_roundtrip (today : Z) (us : users) :
  forallb (fun ku => user_storable (snd ku)) us = true ->
  snd (save_users us) = Ok tt /\
  load_users today (fst (save_users us)) =
    map (fun ku => (fst ku, ensure_expenses (snd ku))) us.
Proof. exact (save_load_users today us). Qed.

Lemma users_get_set (us : users) (k : string) (u : user) :
  users_get (users_set us k u) k = Some u.
Proof.
  induction us as [|[k' u'] us IH]; simpl; [rewrite String.eqb_refl; reflexivity|].
  destruct (String.eqb k' k) eqn:E; simpl; rewrite E; [reflexivity|exact IH].
Qed.

Lemma users_get_map (f : user -> user) (us : users) (k : string) :
  users_get (map (fun ku => (fst ku, f (snd ku))) us) k = option_map f (users_get us k).
Proof.
  induction us as [|[k' u'] us IH]; simpl; [reflexivity|].
  destruct (String.eqb k' k); [reflexivity|exact IH].
Qed.

(** An account just created can log in with its password, on any later
    day, and the record [authenticate] returns is the one [sign_up] wrote,
    with no goals yet. *)
Theorem signup_then_login (hashpw : string -> string -> string)
    (checkpw : string -> string -> option bool)
    (Hcheck : forall p s, checkpw p (hashpw p s) = Some true)
    (today today' : Z) (salt username password nm : string) (f f' : fs) (msg : string) :
  sign_up hashpw today salt username password nm f = (f', Ok (true, msg)) ->
  authenticate checkpw today' username password f' =
    Some (true, Some {| u_name := Some (VStr nm);
                        u_password := Some (VStr (hashpw password salt));
                        u_expenses := Some []; u_extra := [] |}).
Proof.
  unfold sign_up; destruct (users_get (load_users today f) username); [congruence|].
  set (nu := {| u_name := Some (VStr nm); u_password := Some (VStr (hashpw password salt));
                u_expenses := Some []; u_extra := [] |}).
  set (us' := users_set (load_users today f) username nu).
  unfold save_users.
  destruct (forallb (fun ku => user_json_ok (snd ku))
              (map (fun ku => (fst ku, save_user (snd ku))) us')); [|discriminate].
  intro H; injection H as <-.
  unfold authenticate, load_users.
  rewrite users_get_map, users_get_map; unfold us'; rewrite users_get_set; simpl.
  rewrite Hcheck; reflexivity.
Qed.

Lemma default_goals_json (today : Z) (ds : list goal) :
  default_goals today = Some ds -> forallb goal_json_ok (map save_goal ds) = true.
Proof.
  unfold default_goals; destruct (ord2ymd today) as [[y m] day].
  destruct (if day <=? 28 then _ else _) as [rd|]; [|discriminate]; cbn [obind].
  destruct (add_months today (-2)) as [tm|]; [|discriminate]; cbn [obind].
  destruct (add_months today 6) as [sm|]; [|discriminate]; cbn [obind].
  intro H; injection H as <-; reflexivity.
Qed.

Lemma fresh_file_run_gen (today : Z) (gl : globals) (pay_date : Z) (cu : string) (f : fs) :
  f = None \/ f = Some Corrupt ->
  app_run today gl pay_date cu f =
    match default_goals today with
    | Some ds =>
        (Some (UsersJson [(cu, save_user (with_user_expenses (new_user_record cu) ds))]),
         Rerun)
    | None => (f, Raised ValueError)
    end.
Proof.
  intro Hf.
  assert (L : load_users today f = []) by (destruct Hf as [-> | ->]; reflexivity).
  unfold app_run; rewrite L; cbn -[default_goals save_users].
  destruct (default_goals today) as [ds|] eqn:Ed; [|reflexivity].
  unfold save_users; cbn -[save_user].
  assert (J : user_json_ok (save_user (with_user_expenses (new_user_record cu) ds)) = true).
  { unfold user_json_ok; cbn; rewrite (default_goals_json today ds Ed); reflexivity. }
  rewrite J; reflexivity.
Qed.

(** When [users.json] is missing or is not JSON, a run of the logged-in
    user creates the user again with an empty password and the default
    goals, and replaces the file by one that holds this user only (every
    other account is dropped); the run then asks for a rerun. When the
    default dates cannot be computed the run raises [ValueError] and the
    file is left as it was. *)
Theorem fresh_file_run (today : Z) (gl : globals) (pay_date : Z) (cu : string) (f : fs) :
  f = None \/ f = Some Corrupt ->
  app_run today gl pay_date cu f =
    match default_goals today with
    | Some ds =>
        (Some (UsersJson [(cu, save_user (with_user_expenses (new_user_record cu) ds))]),
         Rerun)
    | None => (f, Raised ValueError)
    end.
Proof. exact (fresh_file_run_gen today gl pay_date cu f). Qed.

Lemma days_before_month_bound (y m d : Z) :
  1 <= m <= 12 -> 1 <= d <= days_in_month y m ->
  0 <= days_before_month y m /\
  days_before_month y m + d <= 365 + (if is_leap y then 1 else 0).
Proof.
  intros Hm Hd; unfold days_before_month, days_in_month in *.
  assert (E : m = 1 \/ m = 2 \/ m = 3 \/ m = 4 \/ m = 5 \/ m = 6 \/ m = 7 \/ m = 8 \/
              m = 9 \/ m = 10 \/ m = 11 \/ m = 12) by lia.
  destruct (is_leap y) eqn:L; repeat destruct E as [-> | E]; try subst m;
    cbv beta iota delta [Z.ltb Z.compare Pos.compare Pos.compare_cont andb] in *; lia.
Qed.

Lemma ymd2ord_range (y m d : Z) :
  valid_ymd y m d = true -> 1 <= ymd2ord y m d <= max_ordinal.
Proof.
  intro H; unfold valid_ymd in H; rewrite !andb_true_iff, !Z.leb_le in H.
  destruct H as (((((H1 & H2) & H3) & H4) & H5) & H6).
  destruct (days_before_month_bound y m d ltac:(lia) ltac:(lia)) as (B1 & B2).
  unfold ymd2ord, max_ordinal.
  destruct (Z.eq_dec y 9999) as [->|Hy].
  - assert (L : is_leap 9999 = false) by reflexivity; rewrite L in B2.
    assert (Y : days_before_year 9999 = 3651694) by reflexivity.
    rewrite Y; lia.
  - assert (B3 : days_before_month y m + d <= 366) by (destruct (is_leap y); lia).
    clear B2; unfold days_before_year.
    set (y1 := y - 1); assert (0 <= y1 <= 9997) by lia; clearbody y1.
    Z.div_mod_to_equations; lia.
Qed.

Lemma fromisoformat_range (s : string) (d : Z) :
  fromisoformat s = Some d -> 1 <= d <= max_ordinal.
Proof.
  unfold fromisoformat.
  destruct (negb _); [discriminate|].
  destruct (String.get 4 s) as [[[] [] [] [] [] [] [] []]|]; try discriminate;
  destruct (String.get 7 s) as [[[] [] [] [] [] [] [] []]|]; try discriminate.
  destruct (digits_val 0 (substring 0 4 s)) as [y|]; [|discriminate].
  destruct (digits_val 0 (substring 5 2 s)) as [m|]; [|discriminate].
  destruct (digits_val 0 (substring 8 2 s)) as [dd|]; [|discriminate].
  destruct (valid_ymd y m dd) eqn:V; [|discriminate].
  intro H; injection H as <-; apply ymd2ord_range; exact V.
Qed.

Lemma in_range_b (d : Z) : 1 <= d <= max_ordinal -> (1 <=? d) && (d <=? max_ordinal) = true.
Proof. intro H; apply andb_true_iff; rewrite !Z.leb_le; exact H. Qed.

Lemma load_date_normalize (today today0 : Z) (o : option pyval) :
  date_in_file o = true -> 1 <= today <= max_ordinal -> 1 <= today0 <= max_ordinal ->
  date_storable (load_date today o) = true /\
  exists d, normalize_date today0 (load_date today o) = VDate d /\ 1 <= d <= max_ordinal.
Proof.
  intros Ho Ht Ht0.
  destruct o as [[|b|z|q|str|dd]|]; cbn in Ho; try discriminate.
  - assert (R : 1 <= match fromisoformat str with Some d => d | None => today end
                  <= max_ordinal).
    { destruct (fromisoformat str) eqn:E; [exact (fromisoformat_range _ _ E)|exact Ht]. }
    cbn [load_date date_storable]; rewrite (in_range_b _ R); split; [reflexivity|].
    eexists; split; [reflexivity|exact R].
  - split; [reflexivity|]; exists today0; split; [reflexivity|exact Ht0].
Qed.

Lemma load_goal_storable (today : Z) (g : goal) :
  goal_in_file g = true -> 1 <= today <= max_ordinal ->
  goal_storable (load_goal today g) = true.
Proof.
  intros Hg Ht; unfold goal_in_file, goal_json_ok in Hg; rewrite !andb_true_iff in Hg.
  destruct Hg as (((((((Hn & Htg) & Hdj) & Hcj) & Hsj) & Hx) & Hdf) & Hcf).
  destruct (load_date_normalize today today _ Hdf Ht Ht) as (Sd & _).
  destruct (load_date_normalize today today _ Hcf Ht Ht) as (Sc & _).
  unfold goal_storable, load_goal; cbn [name target deadline created saved_so_far extra].
  rewrite Sd, Sc, Hn, Hx.
  destruct (target g) as [tv|]; destruct (saved_so_far g) as [sv|]; cbn in *;
    rewrite ?Htg, ?Hsj; reflexivity.
Qed.

Lemma load_user_storable (today : Z) (u : user) :
  user_in_file u = true -> 1 <= today <= max_ordinal ->
  user_storable (load_user today u) = true.
Proof.
  intros Hu Ht; unfold user_in_file in Hu; rewrite !andb_true_iff in Hu.
  destruct Hu as (((Hn & Hp) & Hg) & Hx).
  unfold user_storable, load_user.
  destruct (u_expenses u) as [es|] eqn:E; cbn [u_name u_password u_expenses u_extra];
    rewrite Hn, Hp, Hx, ?E; cbn [andb]; rewrite ?andb_true_r; [|reflexivity].
  clear E; induction es as [|g es IH]; [reflexivity|].
  cbn in Hg |- *; apply andb_true_iff in Hg as (Hg1 & Hg2).
  rewrite (load_goal_storable today g Hg1 Ht); exact (IH Hg2).
Qed.

Lemma load_users_storable (today : Z) (us : users) :
  file_ok (Some (UsersJson us)) = true -> 1 <= today <= max_ordinal ->
  forallb (fun ku => user_storable (snd ku))
    (map (fun ku => (fst ku, load_user today (snd ku))) us) = true.
Proof.
  intros Hf Ht; induction us as [|[k u] us IH]; [reflexivity|].
  cbn in Hf |- *; apply andb_true_iff in Hf as (H1 & H2).
  rewrite (load_user_storable today u H1 Ht); exact (IH H2).
Qed.

(** Stored names [1] and ["1"] reach the rows as the same string. *)
Lemma text_input_int_str : text_input (VInt 1) = text_input (VStr "1").
Proof. reflexivity. Qed.

Lemma text_input_json (v w : pyval) : text_input v = Ok w -> json_ok w = true.
Proof. unfold text_input; destruct v; intro H; ok_inv; reflexivity. Qed.

Lemma writeback_loaded_storable (today k p : Z) (g0 rg : goal) (r : row) :
  goal_in_file g0 = true -> 1 <= today <= max_ordinal ->
  render_goal (normalize_goal today (load_goal today g0)) = Ok rg -> to_row rg = Ok r ->
  goal_storable (writeback_goal rg (alloc_row k p r)) = true.
Proof.
  intros Hg Ht H Hr.
  unfold goal_in_file, goal_json_ok in Hg; rewrite !andb_true_iff in Hg.
  destruct Hg as (((((((Hn & Htg) & Hdj) & Hcj) & Hsj) & Hx) & Hdf) & Hcf).
  destruct (load_date_normalize today today _ Hdf Ht Ht) as (_ & dd & Edd & Rdd).
  destruct (load_date_normalize today today _ Hcf Ht Ht) as (_ & cc & Ecc & Rcc).
  unfold render_goal in H;
    cbn [normalize_goal load_goal name target deadline created saved_so_far extra] in H.
  rewrite Edd, Ecc in H.
  unbind H; apply text_input_json in Ha0; cbn [date_input] in *; ok_inv.
  unfold to_row in Hr; cbn [name deadline created target saved_so_far getitem] in Hr.
  unbind Hr; unfold text_input in *.
  do 4 (repeat match goal with
               | H : _ = Ok _ |- _ => progress cbn [getitem text_input date_input to_datetime_date] in H
               end; ok_inv).
  unfold goal_storable, writeback_goal; cbn [a_row alloc_row].
  cbn [name target deadline created saved_so_far extra date_storable json_ok_opt
       row_name row_deadline row_created].
  rewrite (in_range_b _ Rdd), (in_range_b _ Rcc), Hx.
  match goal with H : json_ok ?x = true |- context [json_ok ?x] => rewrite H end.
  reflexivity.
Qed.

Lemma writeback_list_storable (today k p : Z) (es0 rendered : list goal) (rows : list row) :
  forallb goal_in_file es0 = true -> 1 <= today <= max_ordinal ->
  map_res render_goal (map (normalize_goal today) (map (load_goal today) es0)) = Ok rendered ->
  map_res to_row rendered = Ok rows ->
  forallb goal_storable (writeback rendered (map (alloc_row k p) rows)) = true.
Proof.
  intros Hf Ht; revert rendered rows.
  induction es0 as [|g0 es0 IH]; intros rendered rows H1 H2.
  - cbn in H1; injection H1 as <-; reflexivity.
  - cbn in Hf; apply andb_true_iff in Hf as (Hg & Hes).
    cbn [map map_res] in H1; unbind H1; ok_inv.
    cbn [map_res] in H2; unbind H2; ok_inv.
    cbn [map writeback forallb].
    rewrite (writeback_loaded_storable today k p g0 a a1 Hg Ht Ha Ha1).
    exact (IH Hes a0 a2 Ha0 Ha2).
Qed.

Lemma users_set_forallb (P : user -> bool) (us : users) (k : string) (u : user) :
  forallb (fun ku => P (snd ku)) us = true -> P u = true ->
  forallb (fun ku => P (snd ku)) (users_set us k u) = true.
Proof.
  intros H Hu; induction us as [|[k' u'] us IH]; cbn in *; [rewrite Hu; reflexivity|].
  apply andb_true_iff in H as (H1 & H2).
  destruct (String.eqb k' k); cbn; [rewrite Hu, H2|rewrite H1, (IH H2)]; reflexivity.
Qed.

Lemma users_get_forallb (P : user -> bool) (us : users) (k : string) (u : user) :
  forallb (fun ku => P (snd ku)) us = true -> users_get us k = Some u -> P u = true.
Proof.
  induction us as [|[k' u'] us IH]; cbn; [discriminate|].
  intros H; apply andb_true_iff in H as (H1 & H2).
  destruct (String.eqb k' k); [intro E; injection E as <-; exact H1|exact (IH H2)].
Qed.

Lemma users_set_same (us : users) (k : string) (u : user) :
  users_get us k = Some u -> users_set us k u = us.
Proof.
  induction us as [|[k' u'] us IH]; cbn; [discriminate|].
  destruct (String.eqb k' k); [intro E; injection E as ->; reflexivity|].
  intro E; rewrite (IH E); reflexivity.
Qed.

Lemma save_users_ensure (us : users) :
  save_users (map (fun ku => (fst ku, ensure_expenses (snd ku))) us) = save_users us.
Proof.
  unfold save_users; rewrite map_map; cbn [fst snd].
  assert (E : map (fun x => (fst x, save_user (ensure_expenses (snd x)))) us =
              map (fun ku => (fst ku, save_user (snd ku))) us)
    by (apply map_ext; intros [k u]; reflexivity).
  rewrite E; reflexivity.
Qed.

Lemma app_run_no_goals (today : Z) (gl : globals) (pay_date : Z) (cu : string) (f f1 : fs)
    (out : output) :
  match users_get (load_users today f) cu with
  | Some u => match u_expenses u with Some es => es | None => [] end
  | None => []
  end = [] ->
  app_run today gl pay_date cu f <> (f1, Finished out).
Proof.
  intro H; unfold app_run; cbv zeta.
  destruct (users_get (load_users today f) cu) as [u|].
  - destruct (u_expenses u) as [es|]; [subst es|];
      (destruct (default_goals today); [destruct (save_users _) as [? [?|?]]|]; discriminate).
  - cbn [new_user_record u_expenses].
    destruct (default_goals today); [destruct (save_users _) as [? [?|?]]|]; discriminate.
Qed.

Lemma app_run_existing (today : Z) (gl : globals) (pay_date : Z) (cu : string) (f : fs)
    (u : user) (es : list goal) :
  users_get (load_users today f) cu = Some u -> u_expenses u = Some es -> es <> [] ->
  app_run today gl pay_date cu f =
    match map_res render_goal (map (normalize_goal today) es) with
    | Err e => (f, Raised e)
    | Ok rendered =>
        match save_users (users_set (load_users today f) cu (with_user_expenses u rendered)) with
        | (f1, Err e) => (f1, Raised e)
        | (f1, Ok _) =>
            match engine today gl pay_date es with
            | Err e => (f1, Raised e)
            | Ok out =>
                match save_users (users_set (load_users today f) cu
                                    (with_user_expenses u (new_expenses out))) with
                | (f2, Ok _) => (f2, Finished out)
                | (f2, Err e) => (f2, Raised e)
                end
            end
        end
    end.
Proof.
  intros Hg He Hne; unfold app_run; cbv zeta; rewrite Hg, He.
  destruct es as [|g es]; [congruence|].
  destruct (map_res render_goal _); [|reflexivity].
  destruct (save_users _) as [f1 [?|?]]; [|reflexivity].
  destruct (engine _ _ _ _); [|reflexivity].
  destruct (save_users _) as [f2 [?|?]]; reflexivity.
Qed.

(** Running the app twice in a row with the same pay date and frequency
    (the second time on any day) is stable: if a run of the logged-in user
    reaches the end of the script, the next run also does, shows the same
    per-paycheck amounts, total and leftover, and writes back exactly the
    file the first run left. The users file is one [save_users] wrote, with
    its goal dates stored as strings. *)
Theorem run_twice_stable (today today' : Z) (gl : globals) (pay_date : Z) (cu : string)
    (f f1 : fs) (out : output) :
  file_ok f = true -> 1 <= today <= max_ordinal ->
  app_run today gl pay_date cu f = (f1, Finished out) ->
  exists out',
    app_run today' gl pay_date cu f1 = (f1, Finished out') /\
    map per_paycheck (df out') = map per_paycheck (df out) /\
    total_allocations out' = total_allocations out /\
    leftover out' = leftover out.
Proof.
  intros Hf Ht Hrun.
  destruct f as [[us0|]|];
    [|exfalso; refine (app_run_no_goals today gl pay_date cu _ f1 out _ Hrun); reflexivity..].
  destruct (users_get us0 cu) as [u0|] eqn:Eu0;
    [|exfalso; refine (app_run_no_goals today gl pay_date cu _ f1 out _ Hrun);
      cbn [load_users]; rewrite users_get_map, Eu0; reflexivity].
  pose proof (users_get_forallb user_in_file us0 cu u0 Hf Eu0) as Hu0.
  destruct (u_expenses u0) as [[|g0 es0]|] eqn:Ee0.
  1,3: exfalso; refine (app_run_no_goals today gl pay_date cu _ f1 out _ Hrun);
       cbn [load_users]; rewrite users_get_map, Eu0; cbn [option_map];
       unfold load_user; rewrite Ee0; cbv beta iota; rewrite ?Ee0; reflexivity.
  set (us := load_users today (Some (UsersJson us0))).
  set (u := load_user today u0).
  set (es := map (load_goal today) (g0 :: es0)).
  assert (Gu : users_get us cu = Some u)
    by (unfold us; cbn [load_users]; rewrite users_get_map, Eu0; reflexivity).
  assert (Eu : u_expenses u = Some es) by (unfold u, load_user; rewrite Ee0; reflexivity).
  rewrite (app_run_existing today gl pay_date cu _ u es Gu Eu ltac:(discriminate)) in Hrun.
  fold us in Hrun.
  destruct (map_res render_goal (map (normalize_goal today) es)) as [rendered0|e];
    [|discriminate].
  destruct (save_users _) as [f0 [?|e]]; [|discriminate].
  destruct (engine today gl pay_date es) as [o|e] eqn:En; [|discriminate].
  set (X := with_user_expenses u (new_expenses o)) in Hrun.
  set (L := users_set us cu X) in Hrun.
  destruct (save_users L) as [f2 [[]|e]] eqn:Hsave; [|discriminate].
  injection Hrun as <- <-.
  (* the stored users can be saved and loaded back *)
  destruct (engine_ok _ _ _ _ _ En) as (rendered & rows & E1 & E2 & Edf & _ & _ & Ewb).
  unfold user_in_file in Hu0; rewrite Ee0 in Hu0; rewrite !andb_true_iff in Hu0.
  destruct Hu0 as (((Hn & Hp) & Hg) & Hx).
  assert (SX : user_storable X = true).
  { unfold user_storable, X, with_user_expenses, u, load_user; rewrite Ee0;
      cbn [u_name u_password u_expenses u_extra].
    rewrite Hn, Hp, Hx, Ewb, Edf.
    rewrite (writeback_list_storable today (days_between_paychecks gl) pay_date
               (g0 :: es0) rendered rows Hg Ht E1 E2); reflexivity. }
  assert (SL : forallb (fun ku => user_storable (snd ku)) L = true)
    by (apply users_set_forallb; [apply load_users_storable; assumption|exact SX]).
  destruct (save_load_users today' L SL) as (_ & Load).
  rewrite Hsave in Load; cbn [fst] in Load.
  (* the goals written back come through the next run's widgets unchanged *)
  destruct (engine_rerun today today' gl gl pay_date pay_date es o En)
    as (rendered' & rows' & Edf' & Ewb' & HF & _).
  destruct (rerun_lists today' (days_between_paychecks gl) pay_date rendered' rows' HF)
    as (R1 & _).
  rewrite <- Edf', <- Ewb' in R1.
  destruct (rerun_fixpoint_gen today today' gl pay_date es o En)
    as (o' & Er & Enew & _ & Eper & Etot & Elo).
  exists o'; split; [|split; [exact Eper|split; [exact Etot|exact Elo]]].
  assert (Ne : new_expenses o <> []).
  { apply map_res_Forall2 in E1; apply map_res_Forall2 in E2.
    rewrite Ewb, Edf; cbn [map] in E1.
    inversion E1 as [|? rg ? rgs _ _ Er1]; subst rendered.
    inversion E2 as [|? r ? rs _ _ Er2]; subst rows.
    discriminate. }
  assert (G2 : users_get (load_users today' f2) cu = Some (ensure_expenses X))
    by (rewrite Load, users_get_map; unfold L; rewrite users_get_set; reflexivity).
  rewrite (app_run_existing today' gl pay_date cu f2 (ensure_expenses X) (new_expenses o)
             G2 eq_refl Ne).
  assert (S2 : users_set (load_users today' f2) cu
                 (with_user_expenses (ensure_expenses X) (new_expenses o)) =
               load_users today' f2)
    by (apply users_set_same; exact G2).
  rewrite R1, S2, Load, save_users_ensure, Hsave, Er, Enew.
  rewrite <- Load, S2, Load, save_users_ensure, Hsave; reflexivity.
Qed.

Lemma days_in_month_ge (y m : Z) : 1 <= m <= 12 -> 28 <= days_in_month y m.
Proof.
  intro H; unfold days_in_month.
  assert (E : m = 1 \/ m = 2 \/ m = 3 \/ m = 4 \/ m = 5 \/ m = 6 \/ m = 7 \/ m = 8 \/
              m = 9 \/ m = 10 \/ m = 11 \/ m = 12) by lia.
  destruct (is_leap y); repeat destruct E as [-> | E]; try subst m; lia.
Qed.

Lemma valid_ymd_intro (y m d : Z) :
  1 <= y <= 9999 -> 1 <= m <= 12 -> 1 <= d <= days_in_month y m -> valid_ymd y m d = true.
Proof. intros; unfold valid_ymd; rewrite !andb_true_iff, !Z.leb_le; lia. Qed.

Lemma replace_day_28 (d : Z) :
  1 <= d <= max_ordinal -> exists d', replace_day d 28 = Some d' /\ 1 <= d' <= max_ordinal.
Proof.
  intro H; pose proof (ord2ymd_spec d H) as S; unfold replace_day.
  destruct (ord2ymd d) as [[y m] dd]; destruct S as (V & _).
  unfold valid_ymd in V; rewrite !andb_true_iff, !Z.leb_le in V.
  assert (V' : valid_ymd y m 28 = true)
    by (apply valid_ymd_intro; try lia; pose proof (days_in_month_ge y m); lia).
  rewrite V'; eexists; split; [reflexivity|apply ymd2ord_range; exact V'].
Qed.

Lemma add_months_some (d k : Z) :
  1 <= d <= max_ordinal -> -12 <= k <= 12 ->
  (let '(y, _, _) := ord2ymd d in 2 <= y <= 9998) ->
  exists d', add_months d k = Some d' /\ 1 <= d' <= max_ordinal.
Proof.
  intros H Hk Hy; pose proof (ord2ymd_spec d H) as S; unfold add_months.
  destruct (ord2ymd d) as [[y m] dd]; destruct S as (V & _).
  unfold valid_ymd in V; rewrite !andb_true_iff, !Z.leb_le in V.
  assert (Hyr : forall year month,
             year = y \/ year = y + 1 \/ year = y - 1 -> 1 <= month <= 12 ->
             exists d', (if (1 <=? year) && (year <=? 9999)
                         then Some (ymd2ord year month (Z.min dd (days_in_month year month)))
                         else None) = Some d' /\ 1 <= d' <= max_ordinal).
  { intros year month Hyear Hm.
    assert (Yb : (1 <=? year) && (year <=? 9999) = true)
      by (apply andb_true_iff; rewrite !Z.leb_le; lia).
    rewrite Yb; eexists; split; [reflexivity|].
    apply ymd2ord_range; apply valid_ymd_intro; try lia.
    pose proof (days_in_month_ge year month Hm); lia. }
  destruct (Z.ltb_spec 12 (m + k)); [apply Hyr; lia|].
  destruct (Z.ltb_spec (m + k) 1); apply Hyr; lia.
Qed.

(** The default goals of a user with no goals can be computed on every day
    of the years 2 to 9998 (the date arithmetic of lines 180-186 stays
    within the calendar). *)
Theorem default_goals_exist (today : Z) :
  1 <= today <= max_ordinal ->
  (let '(y, _, _) := ord2ymd today in 2 <= y <= 9998) ->
  exists ds, default_goals today = Some ds.
Proof.
  intros H Hy.
  destruct (add_months_some today 1 H ltac:(lia) Hy) as (d1 & E1 & R1).
  destruct (add_months_some today (-2) H ltac:(lia) Hy) as (d2 & E2 & R2).
  destruct (add_months_some today 6 H ltac:(lia) Hy) as (d6 & E6 & R6).
  destruct (replace_day_28 today H) as (r0 & Er0 & _).
  destruct (replace_day_28 d1 R1) as (r1 & Er1 & _).
  unfold default_goals; destruct (ord2ymd today) as [[y m] day].
  rewrite E2, E6; cbn [obind].
  destruct (day <=? 28); [rewrite Er0|rewrite E1; cbn [obind]; rewrite Er1];
    cbn [obind]; eexists; reflexivity.
Qed.








(** A user the app re-created after [users.json] went missing or could not
    be read is locked out: its stored password is the empty string, which
    [bcrypt.checkpw] rejects as an invalid hash by raising [ValueError], so
    [authenticate] raises for every password, on any later day. *)
Theorem recreated_user_locked_out (checkpw : string -> string -> option bool)
    (Hempty : forall p, checkpw p "" = None)
    (today today' : Z) (gl : globals) (pay_date : Z) (cu password : string) (f f1 : fs) :
  f = None \/ f = Some Corrupt ->
  app_run today gl pay_date cu f = (f1, Rerun) ->
  authenticate checkpw today' cu password f1 = None.
Proof.
  intros Hf H; rewrite (fresh_file_run_gen today gl pay_date cu f Hf) in H.
  destruct (default_goals today) as [ds|]; [|discriminate].
  injection H as <-.
  unfold authenticate, load_users; cbn [map fst snd users_get].
  rewrite String.eqb_refl; cbn; rewrite Hempty; reflexivity.
Qed.

(** ** Witnesses of the run, persistence and account theorems *)

Lemma rerun_fixpoint_witness :
  match engine example_pay_date example_globals example_pay_date [example_goal] with
  | Ok out =>
      exists out',
        engine (ymd2ord 2024 2 1) example_globals example_pay_date (new_expenses out)
          = Ok out' /\
        new_expenses out' = new_expenses out /\
        map effective_saved (df out') = map effective_saved (df out) /\
        map per_paycheck (df out') = map per_paycheck (df out) /\
        total_allocations out' = total_allocations out /\
        leftover out' = leftover out
  | Err _ => False
  end.
Proof.
  destruct (engine example_pay_date example_globals example_pay_date [example_goal])
    as [out|e] eqn:E.
  - exact (rerun_fixpoint _ _ _ _ _ out E).
  - vm_compute in E; discriminate.
Defined.

Lemma auto_saved_frozen_witness :
  match engine example_pay_date example_globals example_pay_date [example_goal] with
  | Ok out =>
      exists out',
        engine (ymd2ord 2024 2 1) (paycheck_inputs example_globals 1000 "Weekly (7d)")
          (ymd2ord 2024 2 1) (new_expenses out) = Ok out' /\
        Forall2 (fun a a' =>
           row_saved_so_far (a_row a') = effective_saved a /\
           ((0 < effective_saved a)%Q -> effective_saved a' = effective_saved a))
          (df out) (df out')
  | Err _ => False
  end.
Proof.
  destruct (engine example_pay_date example_globals example_pay_date [example_goal])
    as [out|e] eqn:E.
  - exact (auto_saved_frozen _ _ _ _ _ _ _ out E).
  - vm_compute in E; discriminate.
Defined.

Lemma pie_total_witness :
  match engine example_pay_date example_globals example_pay_date
          [example_goal; example_goal_car] with
  | Ok out =>
      ForallOrdPairs
        (fun a b => py_key_eqb (row_name (a_row a)) (row_name (a_row b)) = false) (df out) /\
      Forall (fun a => py_key_eqb (row_name (a_row a)) (VStr "Leftover") = false) (df out) /\
      allocations_nonzero (pie_allocations (df out) (leftover out)) =
        (allocations_nonzero (map pie_item (df out)) ++
         (if Qltb 0 (leftover out) then [(VStr "Leftover", leftover out)] else []))%list /\
      (sum_values (allocations_nonzero (pie_allocations (df out) (leftover out)))
         == py_maxQ (total_allocations out) (paycheck example_globals))%Q
  | Err _ => False
  end.
Proof.
  destruct (engine example_pay_date example_globals example_pay_date
              [example_goal; example_goal_car]) as [out|e] eqn:E.
  - assert (H1 : ForallOrdPairs
                   (fun a b => py_key_eqb (row_name (a_row a)) (row_name (a_row b)) = false)
                   (df out))
      by (vm_compute in E; injection E as <-; repeat constructor).
    assert (H2 : Forall (fun a => py_key_eqb (row_name (a_row a)) (VStr "Leftover") = false)
                   (df out))
      by (vm_compute in E; injection E as <-; repeat constructor).
    exact (conj H1 (conj H2 (pie_total _ _ _ _ out E H1 H2))).
  - vm_compute in E; discriminate.
Defined.

Lemma isoformat_roundtrip_witness :
  1 <= ymd2ord 2024 1 15 <= max_ordinal /\
  fromisoformat (isoformat (ymd2ord 2024 1 15)) = Some (ymd2ord 2024 1 15).
Proof.
  assert (H : 1 <= ymd2ord 2024 1 15 <= max_ordinal).
  { assert (E : ymd2ord 2024 1 15 = 738900) by reflexivity.
    rewrite E; unfold max_ordinal; lia. }
  exact (conj H (isoformat_roundtrip _ H)).
Defined.

Lemma save_load_roundtrip_witness :
  forallb (fun ku => user_storable (snd ku))
    [("alice", {| u_name := Some (VStr "alice"); u_password := Some (VStr "h");
                  u_expenses := Some [example_goal_loaded]; u_extra := [] |});
     ("bob", {| u_name := Some (VStr "bob"); u_password := Some (VStr "h");
                u_expenses := None; u_extra := [("theme", VStr "dark")] |})] = true /\
  snd (save_users
    [("alice", {| u_name := Some (VStr "alice"); u_password := Some (VStr "h");
                  u_expenses := Some [example_goal_loaded]; u_extra := [] |});
     ("bob", {| u_name := Some (VStr "bob"); u_password := Some (VStr "h");
                u_expenses := None; u_extra := [("theme", VStr "dark")] |})]) = Ok tt /\
  load_users example_pay_date (fst (save_users
    [("alice", {| u_name := Some (VStr "alice"); u_password := Some (VStr "h");
                  u_expenses := Some [example_goal_loaded]; u_extra := [] |});
     ("bob", {| u_name := Some (VStr "bob"); u_password := Some (VStr "h");
                u_expenses := None; u_extra := [("theme", VStr "dark")] |})])) =
    map (fun ku => (fst ku, ensure_expenses (snd ku)))
    [("alice", {| u_name := Some (VStr "alice"); u_password := Some (VStr "h");
                  u_expenses := Some [example_goal_loaded]; u_extra := [] |});
     ("bob", {| u_name := Some (VStr "bob"); u_password := Some (VStr "h");
                u_expenses := None; u_extra := [("theme", VStr "dark")] |})].
Proof.
  assert (H : forallb (fun ku => user_storable (snd ku))
    [("alice", {| u_name := Some (VStr "alice"); u_password := Some (VStr "h");
                  u_expenses := Some [example_goal_loaded]; u_extra := [] |});
     ("bob", {| u_name := Some (VStr "bob"); u_password := Some (VStr "h");
                u_expenses := None; u_extra := [("theme", VStr "dark")] |})] = true)
    by (vm_compute; reflexivity).
  exact (conj H (save_load_roundtrip example_pay_date _ H)).
Defined.

Lemma signup_then_login_witness :
  (forall p s : string,
     (fun p h => Some (String.eqb p h)) p ((fun p (_ : string) => p) p s) = Some true) /\
  authenticate (fun p h => Some (String.eqb p h)) (ymd2ord 2024 2 1) "alice" "pw"
    (fst (sign_up (fun p (_ : string) => p) example_pay_date "salt" "alice" "pw" "Alice"
            None)) =
    Some (true, Some {| u_name := Some (VStr "Alice"); u_password := Some (VStr "pw");
                        u_expenses := Some []; u_extra := [] |}).
Proof.
  assert (Hc : forall p s : string,
             (fun p h => Some (String.eqb p h)) p ((fun p (_ : string) => p) p s) = Some true)
    by (intros p s; cbn; rewrite String.eqb_refl; reflexivity).
  split; [exact Hc|].
  destruct (sign_up (fun p (_ : string) => p) example_pay_date "salt" "alice" "pw" "Alice"
              None) as [f' r] eqn:E; cbn [fst].
  assert (Hr : r = Ok (true, "Account created successfully"))
    by (vm_compute in E; injection E as _ <-; reflexivity).
  subst r.
  exact (signup_then_login _ _ Hc example_pay_date (ymd2ord 2024 2 1) "salt" "alice" "pw"
           "Alice" None f' _ E).
Defined.

Lemma fresh_file_run_witness :
  (Some Corrupt = None \/ Some Corrupt = Some Corrupt) /\
  app_run example_pay_date example_globals example_pay_date "alice" (Some Corrupt) =
    match default_goals example_pay_date with
    | Some ds =>
        (Some (UsersJson [("alice", save_user (with_user_expenses (new_user_record "alice") ds))]),
         Rerun)
    | None => (Some Corrupt, Raised ValueError)
    end.
Proof.
  assert (H : Some Corrupt = None \/ Some Corrupt = Some Corrupt) by (right; reflexivity).
  exact (conj H (fresh_file_run _ _ _ _ _ H)).
Defined.

Lemma run_twice_stable_witness :
  match app_run example_pay_date example_globals example_pay_date "alice" example_file with
  | (f1, Finished out) =>
      file_ok example_file = true /\ 1 <= example_pay_date <= max_ordinal /\
      exists out',
        app_run (ymd2ord 2024 2 1) example_globals example_pay_date "alice" f1
          = (f1, Finished out') /\
        map per_paycheck (df out') = map per_paycheck (df out) /\
        total_allocations out' = total_allocations out /\
        leftover out' = leftover out
  | _ => False
  end.
Proof.
  destruct (app_run example_pay_date example_globals example_pay_date "alice" example_file)
    as [f1 [|out|e]] eqn:E; try (vm_compute in E; discriminate).
  assert (Hf : file_ok example_file = true) by (vm_compute; reflexivity).
  assert (Ht : 1 <= example_pay_date <= max_ordinal).
  { assert (Ed : example_pay_date = 738900) by reflexivity.
    rewrite Ed; unfold max_ordinal; lia. }
  exact (conj Hf (conj Ht (run_twice_stable _ _ _ _ _ _ _ out Hf Ht E))).
Defined.

Lemma default_goals_exist_witness :
  1 <= example_pay_date <= max_ordinal /\
  (let '(y, _, _) := ord2ymd example_pay_date in 2 <= y <= 9998) /\
  exists ds, default_goals example_pay_date = Some ds.
Proof.
  assert (Ht : 1 <= example_pay_date <= max_ordinal).
  { assert (Ed : example_pay_date = 738900) by reflexivity.
    rewrite Ed; unfold max_ordinal; lia. }
  assert (Hy : let '(y, _, _) := ord2ymd example_pay_date in 2 <= y <= 9998).
  { assert (Eo : ord2ymd example_pay_date = (2024, 1, 15)) by (vm_compute; reflexivity).
    rewrite Eo; lia. }
  exact (conj Ht (conj Hy (default_goals_exist _ Ht Hy))).
Defined.


Lemma recreated_user_locked_out_witness :
  (forall p, (fun p h => if String.eqb h "" then None else Some (String.eqb p h)) p ""
             = None) /\
  (Some Corrupt = None \/ Some Corrupt = Some Corrupt) /\
  match app_run example_pay_date example_globals example_pay_date "alice" (Some Corrupt) with
  | (f1, Rerun) =>
      authenticate (fun p h => if String.eqb h "" then None else Some (String.eqb p h))
        (ymd2ord 2024 2 1) "alice" "secret" f1 = None
  | _ => False
  end.
Proof.
  assert (He : forall p, (fun p h => if String.eqb h "" then None else Some (String.eqb p h))
                           p "" = None) by (intro p; reflexivity).
  assert (Hf : Some Corrupt = None \/ Some Corrupt = Some Corrupt) by (right; reflexivity).
  split; [exact He|split; [exact Hf|]].
  destruct (app_run example_pay_date example_globals example_pay_date "alice" (Some Corrupt))
    as [f1 [|out|e]] eqn:E; try (vm_compute in E; discriminate).
  exact (recreated_user_locked_out _ He _ _ _ _ _ _ _ _ Hf E).
Defined.
